(** * Cache-aside data access layer: [services/base_service.py]

    A shallow embedding of [BaseDataService] (fetch by identifier and fetch
    by query over a Redis cache and an Elasticsearch backend) together with
    the properties of its read path.

    The two collaborators are not part of the service: Redis is modelled as a
    typed key/value store with expiry, driven by the commands the service
    sends; Elasticsearch is a read-only oracle.  Python exceptions are an
    explicit outcome, and every coroutine is a state transformer over the
    world (store, clock, and the log of commands sent to each collaborator).
    Calls to [logging] do not alter control flow and are left out. *)

From Stdlib Require Import ZArith Lia Ascii String DecimalString.
From Stdlib Require DecimalPos DecimalZ.
From stdpp Require Import base option list gmap strings.

Open Scope string_scope.
Open Scope Z_scope.

(** ** Exceptions and outcomes *)

Inductive exn : Type :=
| NotFoundError              (* elasticsearch.NotFoundError *)
| KeyError (key : string)    (* failed subscript of a dict *)
| TypeError                  (* a keyword no parameter takes; an attribute of None *)
| ValidationError            (* a model class rejects its input *)
| ResponseError              (* Redis refuses the command (wrong type, arity) *)
| ConnectionError
| TimeoutError.

Inductive outcome (A : Type) : Type :=
| Returned (a : A)
| Raised (e : exn).

Arguments Returned {A} a.
Arguments Raised {A} e.

(** ** Python truthiness, as used by [if x] and [if not x] *)

Class Truthy (A : Type) := truthy : A → bool.

Global Instance truthy_string : Truthy string :=
  λ s, match s with EmptyString => false | String _ _ => true end.

Global Instance truthy_list {A} : Truthy (list A) :=
  λ l, match l with [] => false | _ :: _ => true end.

(** [None] is falsy; any other value answers for itself. *)
Global Instance truthy_option {A} `{Truthy A} : Truthy (option A) :=
  λ o, match o with None => false | Some a => truthy a end.

(** ** Redis: values, commands, the range of LRANGE *)

Inductive RVal : Type :=
| RStr (v : string) (expire_at : option Z)
| RList (items : list string).

Inductive RedisCmd : Type :=
| EXISTS (key : string)
| GET (key : string)
| SET (key value : string) (expire : Z)     (* SET key value EX expire *)
| SET_PLAIN (key value : string)           (* SET key value *)
| LRANGE (key : string) (start stop : Z)
| RPUSH (key : string) (values : list string).

(** LRANGE key start stop.  Both ends are inclusive; a negative index counts
    from the tail of the list; an out-of-range stop is clamped. *)
Definition lrange_slice {A} (l : list A) (start stop : Z) : list A :=
  let llen := Z.of_nat (length l) in
  let start := if start <? 0 then llen + start else start in
  let stop := if stop <? 0 then llen + stop else stop in
  let start := if start <? 0 then 0 else start in
  if (stop <? start) || (llen <=? start) then []
  else
    let stop := if llen <=? stop then llen - 1 else stop in
    take (Z.to_nat (stop - start + 1)) (drop (Z.to_nat start) l).

(** The parameters that [set(name, value, ...)] of the client takes by
    keyword: redis.asyncio, which the service imports, has [ex] for the
    seconds to live and no parameter called [expire]. *)
Definition SET_PARAMETERS : list string :=
  ["ex"; "px"; "nx"; "xx"; "keepttl"; "get"; "exat"; "pxat"].

(** str(n) for a Python int. *)
Definition py_str_int (n : Z) : string := NilZero.string_of_int (Z.to_int n).

Definition CACHE_EXPIRE_IN_SECONDS : Z := 60 * 5.

(** HTTPStatus.NOT_FOUND *)
Definition NOT_FOUND : Z := 404.

(** ** The world the coroutines run in *)

Section World.

(** The request body of a search (a dict); the [_source] of a backend
    document; the instances of the model classes of [models.models]. *)
Variables Body Source Doc : Type.

(** What the service uses of a model class.  A class that rejects its input
    raises its validation error: [None] here. *)
Record ModelClass : Type := {
  construct : Source → option Doc;      (* cls( **source ) *)
  parse_raw : string → option Doc       (* cls.parse_raw(raw) *)
}.

Record EsDoc : Type := { _source : Source }.

Inductive EsCall : Type :=
| EsGet (index id : string)
| EsSearch (index : string) (body : Body).

(** The backend is only read: what it answers to a get and to a search
    (the latter being [data['hits']['hits']]). *)
Record Elastic : Type := {
  es_get : string → string → outcome EsDoc;
  es_search : string → Body → outcome (list EsDoc)
}.

Record World : Type := {
  store : gmap string RVal;
  now : Z;
  redis_log : list RedisCmd;
  es_log : list EsCall
}.

Definition with_store (st : gmap string RVal) (w : World) : World :=
  {| store := st; now := now w; redis_log := redis_log w; es_log := es_log w |}.

Definition sent (c : RedisCmd) (w : World) : World :=
  {| store := store w; now := now w; redis_log := redis_log w ++ [c]; es_log := es_log w |}.

Definition asked (c : EsCall) (w : World) : World :=
  {| store := store w; now := now w; redis_log := redis_log w; es_log := es_log w ++ [c] |}.

(** The clock moves on by [dt] seconds. *)
Definition tick (dt : Z) (w : World) : World :=
  {| store := store w; now := now w + dt; redis_log := redis_log w; es_log := es_log w |}.

(** The value at a key, expired entries being gone. *)
Definition live (w : World) (k : string) : option RVal :=
  match store w !! k with
  | Some (RStr v (Some t)) => if t <=? now w then None else Some (RStr v (Some t))
  | o => o
  end.

Definition M (A : Type) : Type := World → outcome A * World.

#[global] Instance M_ret : MRet M := λ A a w, (Returned a, w).

#[global] Instance M_bind : MBind M := λ A B f m w,
  match m w with
  | (Returned a, w') => f a w'
  | (Raised e, w') => (Raised e, w')
  end.

Definition raise {A} (e : exn) : M A := λ w, (Raised e, w).

Definition lift {A} (o : outcome A) : M A := λ w, (o, w).

(** The result of a model class, or its validation error. *)
Definition validated {A} (o : option A) : M A :=
  match o with Some a => mret a | None => raise ValidationError end.

(** x.attr or x.method() where x may be None *)
Definition the {A} (o : option A) : M A :=
  match o with Some a => mret a | None => raise TypeError end.

(** try: body / except NotFoundError: handler *)
Definition try_except_NotFoundError {A} (body handler : M A) : M A := λ w,
  match body w with
  | (Raised NotFoundError, w') => handler w'
  | r => r
  end.

(** A coroutine object: created by calling an async method, run only when
    awaited.  As an object it is truthy. *)
Inductive Coroutine (A : Type) : Type := Coro (run : M A).

Definition await {A} (c : Coroutine A) : M A := let 'Coro _ run := c in run.

#[global] Instance truthy_coroutine {A} : Truthy (Coroutine A) := λ _, true.

(** *** The endpoints of [api/v1]

    An endpoint answers, raises the HTTPException it builds, or lets an
    exception of the service through. *)
Inductive reply (A : Type) : Type :=
| Responded (a : A)
| HTTPException (status_code : Z) (detail : string)
| Failed (e : exn).

Definition Endpoint (A : Type) : Type := World → reply A * World.

#[global] Instance Endpoint_ret : MRet Endpoint := λ A a w, (Responded A a, w).

#[global] Instance Endpoint_bind : MBind Endpoint := λ A B f m w,
  match m w with
  | (Responded _ a, w') => f a w'
  | (HTTPException _ status_code detail, w') => (HTTPException B status_code detail, w')
  | (Failed _ e, w') => (Failed B e, w')
  end.

(** A call into the service from an endpoint. *)
Definition serve {A} (m : M A) : Endpoint A := λ w,
  match m w with
  | (Returned a, w') => (Responded A a, w')
  | (Raised e, w') => (Failed A e, w')
  end.

(** raise HTTPException(status_code=..., detail=...) *)
Definition raise_http {A} (status_code : Z) (detail : string) : Endpoint A :=
  λ w, (HTTPException A status_code detail, w).

End World.

Arguments construct {Source Doc} _ _.
Arguments parse_raw {Source Doc} _ _.
Arguments _source {Source} _.
Arguments EsGet {Body} index id.
Arguments EsSearch {Body} index body.
Arguments es_get {Body Source} _ _ _.
Arguments es_search {Body Source} _ _ _.
Arguments store {Body} _.
Arguments now {Body} _.
Arguments redis_log {Body} _.
Arguments es_log {Body} _.
Arguments with_store {Body} st w.
Arguments sent {Body} c w.
Arguments asked {Body} c w.
Arguments tick {Body} dt w.
Arguments live {Body} w k.
Arguments raise {Body A} e _.
Arguments lift {Body A} o _.
Arguments validated {Body A} o.
Arguments the {Body A} o.
Arguments try_except_NotFoundError {Body A} body handler _.
Arguments Coro {Body A} run.
Arguments await {Body A} c.
Arguments Responded {A} a.
Arguments HTTPException {A} status_code detail.
Arguments Failed {A} e.
Arguments serve {Body A} m _.
Arguments raise_http {Body A} status_code detail _.

(** What a service instance is bound to at construction (the two client
    handles live in the world). *)
Record BaseDataService : Type := {
  index_name : string;
  service_name : string
}.

(** ** A small catalogue: genres behind a line-oriented codec *)

Module Scenario.

Record GenreDoc : Type := { gid : string; gname : string }.

Fixpoint split_colon (s : string) : option (string * string) :=
  match s with
  | EmptyString => None
  | String c rest =>
    if Ascii.eqb c ":"%char then Some (EmptyString, rest)
    else match split_colon rest with
         | Some (a, b) => Some (String c a, b)
         | None => None
         end
  end.

Definition genre_json (d : GenreDoc) : string := gid d +:+ ":" +:+ gname d.

Definition genre_parse_raw (raw : string) : option GenreDoc :=
  match split_colon raw with
  | Some (i, n) => if truthy i then Some {| gid := i; gname := n |} else None
  | None => None
  end.

Definition GenreModel : ModelClass GenreDoc GenreDoc :=
  {| construct := λ src, if truthy (gid src) then Some src else None;
     parse_raw := genre_parse_raw |}.

(** The catalogue has no films and no persons. *)
Definition NoModel : ModelClass GenreDoc GenreDoc :=
  {| construct := λ _, None; parse_raw := λ _, None |}.

(** A search body is given by its rendering. *)
Definition render (body : string) : string := body.

Definition drama : GenreDoc := {| gid := "g1"; gname := "Drama" |}.
Definition comedy : GenreDoc := {| gid := "g2"; gname := "Comedy" |}.
Definition horror : GenreDoc := {| gid := "g3"; gname := "Horror" |}.

(** A hash on strings: the sum of the character codes. *)
Fixpoint code_sum (s : string) : Z :=
  match s with
  | EmptyString => 0
  | String c rest => Z.of_nat (Ascii.nat_of_ascii c) + code_sum rest
  end.

Definition tragedy : GenreDoc := {| gid := "g1"; gname := "Tragedy" |}.

(** A backend holding three genres. *)
Definition backend : Elastic string GenreDoc :=
  {| es_get := λ index id,
       if String.eqb index "genres" && String.eqb id "g1"
       then Returned {| _source := drama |}
       else Raised NotFoundError;
     es_search := λ index body,
       if String.eqb body "{match_all}"
       then Returned [{| _source := drama |}; {| _source := comedy |};
                      {| _source := horror |}]
       else if String.eqb body "{match_none}" then Returned []
       else Raised NotFoundError |}.

(** A backend whose document g4 has no id, and whose search for the
    unnamed brings it. *)
Definition backend_unnamed : Elastic string GenreDoc :=
  {| es_get := λ index id,
       if String.eqb id "g4"
       then Returned {| _source := {| gid := ""; gname := "Unnamed" |} |}
       else Raised NotFoundError;
     es_search := λ index body,
       Returned [{| _source := drama |};
                 {| _source := {| gid := ""; gname := "Unnamed" |} |}] |}.

(** A cache that times out on every GET. *)
Definition get_fault : RedisCmd → option exn :=
  λ c, match c with GET _ => Some TimeoutError | _ => None end.

(** A backend that is out of reach. *)
Definition backend_down : Elastic string GenreDoc :=
  {| es_get := λ _ _, Raised ConnectionError;
     es_search := λ _ _, Raised ConnectionError |}.

Definition no_fault : RedisCmd → option exn := λ _, None.

Definition start : World string :=
  {| store := ∅; now := 0; redis_log := []; es_log := [] |}.

Definition holding (k : string) (v : RVal) : World string :=
  {| store := {[ k := v ]}; now := 0; redis_log := []; es_log := [] |}.

Definition genre_service : BaseDataService :=
  {| index_name := "genres"; service_name := "genre" |}.

(** The constructor's defaults. *)
Definition base_service : BaseDataService :=
  {| index_name := ""; service_name := "base" |}.

(** A cache that loses the connection on every LRANGE, and one that does
    on every RPUSH. *)
Definition lrange_fault : RedisCmd → option exn :=
  λ c, match c with LRANGE _ _ _ => Some ConnectionError | _ => None end.

Definition rpush_fault : RedisCmd → option exn :=
  λ c, match c with RPUSH _ _ => Some ConnectionError | _ => None end.

(** The response model of the genre endpoints takes every genre. *)
Definition genre_base (genre : GenreDoc) : option GenreDoc := Some genre.

(** A listing service over a fixed page, and one that finds nothing. *)
Definition list_two (page size : Z) : M string (option (list GenreDoc)) :=
  mret (Some [drama; comedy]).

Definition list_none (page size : Z) : M string (option (list GenreDoc)) :=
  mret (Some []).

End Scenario.

(** ** The service *)

Section Service.

Variables Body Source Doc : Type.

(** [str(body)] and the interpreter's [hash] on strings belong to the
    running process. *)
Variable py_str : Body → string.
Variable py_hash : string → Z.

(** [models.models]: the three model classes, and what the service uses of
    an instance.  An instance defines neither [__bool__] nor [__len__], so it
    is truthy. *)
Variables Film Person Genre : ModelClass Source Doc.
Variable json : Doc → string.           (* doc.json() *)
Variable id_of : Doc → string.          (* doc.id *)

#[local] Instance truthy_doc : Truthy Doc := λ _, true.

Definition MODELS : gmap string (ModelClass Source Doc) :=
  <["movies" := Film]> (<["persons" := Person]> (<["genres" := Genre]> ∅)).

(** d[k] on the table of model classes *)
Definition subscript (d : gmap string (ModelClass Source Doc)) (k : string)
  : M Body (ModelClass Source Doc) :=
  match d !! k with Some c => mret c | None => raise (KeyError k) end.

(** *** The Redis client

    Each method is async: calling it makes a coroutine object and sends
    nothing; awaiting the object sends the command and gives the reply. *)

(** Which commands fail in transit, and how. *)
Variable redis_fault : RedisCmd → option exn.

Definition command {A} (c : RedisCmd)
    (reply : World Body → outcome A * gmap string RVal) : Coroutine Body A :=
  Coro (λ w,
    let w := sent c w in
    match redis_fault c with
    | Some e => (Raised e, w)
    | None => let (r, st) := reply w in (r, with_store st w)
    end).

Definition redis_exists (key : string) : Coroutine Body Z :=
  command (EXISTS key) (λ w,
    (Returned (match live w key with Some _ => 1 | None => 0 end), store w)).

Definition redis_get (key : string) : Coroutine Body (option string) :=
  command (GET key) (λ w,
    match live w key with
    | None => (Returned None, store w)
    | Some (RStr v _) => (Returned (Some v), store w)
    | Some (RList _) => (Raised ResponseError, store w)
    end).

(** [set(key, value, **kwargs)].  Python binds the keywords when the call is
    made: one that is no parameter of the method raises TypeError there,
    before there is a coroutine and before anything is sent.  Of the
    parameters, [ex] is the one given its meaning here; without it the value
    is stored with no expiry. *)
Definition redis_set (key value : string) (kwargs : list (string * Z))
  : M Body (Coroutine Body unit) :=
  if forallb (λ kw, bool_decide (kw.1 ∈ SET_PARAMETERS)) kwargs then
    mret
      match (list_to_map kwargs : gmap string Z) !! "ex" with
      | Some ex =>
        command (SET key value ex) (λ w,
          (Returned (), <[key := RStr value (Some (now w + ex))]> (store w)))
      | None =>
        command (SET_PLAIN key value) (λ w,
          (Returned (), <[key := RStr value None]> (store w)))
      end
  else raise TypeError.

Definition redis_lrange (key : string) (start stop : Z) : Coroutine Body (list string) :=
  command (LRANGE key start stop) (λ w,
    match live w key with
    | None => (Returned [], store w)
    | Some (RList l) => (Returned (lrange_slice l start stop), store w)
    | Some (RStr _ _) => (Raised ResponseError, store w)
    end).

Definition redis_rpush (key : string) (values : list string) : Coroutine Body Z :=
  command (RPUSH key values) (λ w,
    match values with
    | [] => (Raised ResponseError, store w)
    | _ :: _ =>
      match live w key with
      | None =>
        (Returned (Z.of_nat (length values)), <[key := RList values]> (store w))
      | Some (RList l) =>
        (Returned (Z.of_nat (length (l ++ values))),
         <[key := RList (l ++ values)]> (store w))
      | Some (RStr _ _) => (Raised ResponseError, store w)
      end
    end).

(** *** The Elasticsearch client *)

Variable elastic : Elastic Body Source.

Definition elastic_get (index id : string) : Coroutine Body (EsDoc Source) :=
  Coro (λ w, (es_get elastic index id, asked (EsGet index id) w)).

Definition elastic_search (index : string) (body : Body)
  : Coroutine Body (list (EsDoc Source)) :=
  Coro (λ w, (es_search elastic index body, asked (EsSearch index body) w)).

(** *** BaseDataService *)

Variable self : BaseDataService.

Definition _get_item_from_cache (doc_id : string) : M Body (option string) :=
  if truthy (redis_exists doc_id) then
    await (redis_get (index_name self +:+ doc_id))
  else mret None.

Definition _put_item_to_cache (doc : Doc) : M Body unit :=
  coroutine ← redis_set (index_name self +:+ id_of doc) (json doc)
                 [("expire", CACHE_EXPIRE_IN_SECONDS)];
  await coroutine.

Definition _get_item_from_elastic (doc_id : string) : M Body (option Doc) :=
  try_except_NotFoundError
    (doc ← await (elastic_get (index_name self) doc_id);
     cls ← subscript MODELS (index_name self);
     result ← validated (construct cls (_source doc));
     mret (Some result))
    (mret None).

Definition get_by_id (doc_id : string) : M Body (option Doc) :=
  data ← _get_item_from_cache doc_id;
  if negb (truthy data) then
    data ← _get_item_from_elastic doc_id;
    if negb (truthy data) then mret None
    else
      doc ← the data;
      _ ← _put_item_to_cache doc;
      mret (Some doc)
  else
    raw ← the data;
    cls ← subscript MODELS (index_name self);
    doc ← validated (parse_raw cls raw);
    mret (Some doc).

Definition _get_full_data_from_cache (key : string) (redis_range : Z)
  : M Body (list string) :=
  await (redis_lrange key 0 redis_range).

Definition _put_full_data_to_cache (data : list string) (key : string) : M Body unit :=
  _ ← await (redis_rpush key data);
  mret ().

Definition _get_hash (kwargs : string) : string := py_str_int (py_hash kwargs).

(** [[f(item) for item in items]] *)
Definition comprehension {A B} (f : A → M Body B) (items : list A) : M Body (list B) :=
  mapM f items.

Definition _get_data_from_elastic (body : Body) (index : string)
  : M Body (option (list Doc)) :=
  try_except_NotFoundError
    (data ← await (elastic_search index body);
     data ← comprehension (λ item,
               cls ← subscript MODELS (index_name self);
               validated (construct cls (_source item))) data;
     mret (Some data))
    (mret None).

(** [if not index_name: index_name = self.index_name] *)
Definition effective_index (index_name' : option string) : string :=
  if negb (truthy index_name') then index_name self else default "" index_name'.

Definition _get_data (body : Body) (size : Z) (index_name' : option string)
  : M Body (option (list Doc)) :=
  let index_name' := effective_index index_name' in
  let redis_key := _get_hash (py_str body +:+ index_name') in
  data ← _get_full_data_from_cache redis_key size;
  if negb (truthy data) then
    data ← _get_data_from_elastic body index_name';
    if negb (truthy data) then mret None
    else
      items ← the data;
      let cache_data := json <$> items in
      _ ← _put_full_data_to_cache cache_data redis_key;
      mret (Some items)
  else
    data ← comprehension (λ item,
              cls ← subscript MODELS (index_name self);
              validated (parse_raw cls item)) data;
    mret (Some data).

(** *** The genre endpoints, [api/v1/genres.py]

    [GenreBase] is the response model, built from the dict of a genre;
    [get_list_genres] is the listing method of the genre service.  Both are
    defined outside these files.  The bounds on the query parameters are
    the router's. *)
Variable ApiGenre : Type.
Variable GenreBase : Doc → option ApiGenre.       (* GenreBase( **genre.dict() ) *)
Variable get_list_genres : Z → Z → M Body (option (list Doc)).

Definition genre_details (genre_id : string) : Endpoint Body ApiGenre :=
  genre ← serve (get_by_id genre_id);
  if negb (truthy genre) then raise_http NOT_FOUND "genre not found"
  else
    genre ← serve (the genre);
    serve (validated (GenreBase genre)).

Definition film_list (page size : Z) : Endpoint Body (list ApiGenre) :=
  genres ← serve (get_list_genres page size);
  if negb (truthy genres) then raise_http NOT_FOUND "genres not found"
  else
    genres ← serve (the genres);
    serve (comprehension (λ genre, validated (GenreBase genre)) genres).

(** ** Running the monad and the clients *)

Ltac run_monad :=
  cbv beta iota delta [mbind M_bind mret M_ret raise lift validated the].

Lemma bind_returned {A B} (m : M Body A) (f : A → M Body B) w a w' :
  m w = (Returned a, w') → (m ≫= f) w = f a w'.
Proof. intros H. unfold mbind, M_bind. by rewrite H. Qed.

Lemma bind_raised {A B} (m : M Body A) (f : A → M Body B) w e w' :
  m w = (Raised e, w') → (m ≫= f) w = (Raised e, w').
Proof. intros H. unfold mbind, M_bind. by rewrite H. Qed.

Lemma MODELS_unbound k :
  k ≠ "movies" → k ≠ "persons" → k ≠ "genres" → MODELS !! k = None.
Proof.
  intros Hm Hp Hg. unfold MODELS.
  rewrite !lookup_insert_ne by congruence. apply lookup_empty.
Qed.

Lemma subscript_bound k cls (w : World Body) :
  MODELS !! k = Some cls → subscript MODELS k w = (Returned cls, w).
Proof. intros H. unfold subscript. by rewrite H. Qed.

Lemma subscript_unbound k (w : World Body) :
  MODELS !! k = None → subscript MODELS k w = (Raised (KeyError k), w).
Proof. intros H. unfold subscript. by rewrite H. Qed.

Lemma command_fault {A} c (reply : World Body → outcome A * gmap string RVal) e w :
  redis_fault c = Some e → await (command c reply) w = (Raised e, sent c w).
Proof. intros H. unfold await, command. by rewrite H. Qed.

Lemma await_redis_get k w :
  redis_fault (GET k) = None →
  await (redis_get k) w =
    (match live w k with
     | None => Returned None
     | Some (RStr v _) => Returned (Some v)
     | Some (RList _) => Raised ResponseError
     end, sent (GET k) w).
Proof.
  intros H. unfold await, redis_get, command. rewrite H.
  change (live (sent (GET k) w) k) with (live w k).
  by destruct (live w k) as [[v t|l]|].
Qed.

Lemma await_redis_lrange k start stop w :
  redis_fault (LRANGE k start stop) = None →
  await (redis_lrange k start stop) w =
    (match live w k with
     | None => Returned []
     | Some (RList l) => Returned (lrange_slice l start stop)
     | Some (RStr _ _) => Raised ResponseError
     end, sent (LRANGE k start stop) w).
Proof.
  intros H. unfold await, redis_lrange, command. rewrite H.
  change (live (sent (LRANGE k start stop) w) k) with (live w k).
  by destruct (live w k) as [[v t|l]|].
Qed.

(** The cache lookup of [get_by_id] is the GET: the existence check is a
    coroutine object, which is truthy and never run. *)
Lemma _get_item_from_cache_is_get doc_id :
  _get_item_from_cache doc_id = await (redis_get (index_name self +:+ doc_id)).
Proof. reflexivity. Qed.

(** What the backend lookup of [get_by_id] comes to, case by case. *)
Lemma _get_item_from_elastic_run doc_id (w : World Body) :
  _get_item_from_elastic doc_id w =
    (match es_get elastic (index_name self) doc_id with
     | Raised NotFoundError => Returned None
     | Raised e => Raised e
     | Returned d =>
       match MODELS !! index_name self with
       | None => Raised (KeyError (index_name self))
       | Some cls =>
         match construct cls (_source d) with
         | Some doc => Returned (Some doc)
         | None => Raised ValidationError
         end
       end
     end, asked (EsGet (index_name self) doc_id) w).
Proof.
  unfold _get_item_from_elastic, try_except_NotFoundError, elastic_get, await,
    subscript, mbind, M_bind.
  destruct (es_get elastic (index_name self) doc_id) as [d|[]]; try reflexivity.
  destruct (MODELS !! index_name self) as [cls|]; [|reflexivity].
  unfold mret, M_ret.
  by destruct (construct cls _).
Qed.

(** [get_by_id] on a hit: the payload goes through the bound class. *)
Lemma get_by_id_hit doc_id raw exp (w : World Body) :
  redis_fault (GET (index_name self +:+ doc_id)) = None →
  live w (index_name self +:+ doc_id) = Some (RStr raw exp) →
  raw ≠ "" →
  get_by_id doc_id w =
    (match MODELS !! index_name self with
     | None => Raised (KeyError (index_name self))
     | Some cls =>
       match parse_raw cls raw with
       | Some doc => Returned (Some doc)
       | None => Raised ValidationError
       end
     end, sent (GET (index_name self +:+ doc_id)) w).
Proof.
  intros Hget Hlive Hraw. unfold get_by_id.
  rewrite _get_item_from_cache_is_get.
  erewrite bind_returned; [|rewrite await_redis_get by done; by rewrite Hlive].
  destruct raw as [|c raw]; [done|]. cbn.
  unfold subscript. run_monad.
  destruct (MODELS !! index_name self) as [cls|]; [|reflexivity].
  by destruct (parse_raw cls (String c raw)).
Qed.

(** [get_by_id] on a miss (no value, or an empty one): the backend is asked,
    and the write of a document found there decides the outcome. *)
Lemma get_by_id_miss doc_id (w : World Body) :
  redis_fault (GET (index_name self +:+ doc_id)) = None →
  (live w (index_name self +:+ doc_id) = None
   ∨ ∃ exp, live w (index_name self +:+ doc_id) = Some (RStr "" exp)) →
  get_by_id doc_id w =
    let w1 := asked (EsGet (index_name self) doc_id)
                (sent (GET (index_name self +:+ doc_id)) w) in
    match (_get_item_from_elastic doc_id (sent (GET (index_name self +:+ doc_id)) w)).1 with
    | Returned None => (Returned None, w1)
    | Returned (Some doc) =>
      match (_put_item_to_cache doc w1).1 with
      | Returned _ => (Returned (Some doc), (_put_item_to_cache doc w1).2)
      | Raised e => (Raised e, (_put_item_to_cache doc w1).2)
      end
    | Raised e => (Raised e, w1)
    end.
Proof.
  intros Hget Hlive. unfold get_by_id.
  rewrite _get_item_from_cache_is_get.
  assert (∃ data : option string,
    await (redis_get (index_name self +:+ doc_id)) w =
      (Returned data, sent (GET (index_name self +:+ doc_id)) w)
    ∧ truthy data = false) as (data & Hrun & Hfalsy).
  { rewrite await_redis_get by done.
    destruct Hlive as [->|[exp ->]]; [by exists None|by exists (Some "")]. }
  erewrite bind_returned by exact Hrun. rewrite Hfalsy.
  cbn [negb].
  unfold mbind at 1. unfold M_bind at 1.
  rewrite _get_item_from_elastic_run. cbn [fst snd].
  destruct (es_get elastic (index_name self) doc_id) as [d|e].
  - destruct (MODELS !! index_name self) as [cls|]; [|reflexivity].
    destruct (construct cls _) as [doc|]; [|reflexivity].
    cbn [truthy truthy_option truthy_doc negb]. run_monad.
    by destruct (_put_item_to_cache doc _) as [[[]|e] w2].
  - by destruct e.
Qed.

(** The write of [get_by_id] names the time to live [expire], which [set]
    does not take: the call raises, and nothing is sent. *)
Lemma _put_item_to_cache_run doc (w : World Body) :
  _put_item_to_cache doc w = (Raised TypeError, w).
Proof. reflexivity. Qed.

(** ** Fetch by identifier *)

(** C1. When the cache holds a record for the identifier, [get_by_id]
    returns that cached payload as deserialized by the class bound to the
    service's index, whatever the backend holds, and the backend is not
    called: the only command sent is the GET. *)
Theorem get_by_id_cache_takes_precedence doc_id raw exp cls doc (w : World Body) :
  redis_fault (GET (index_name self +:+ doc_id)) = None →
  live w (index_name self +:+ doc_id) = Some (RStr raw exp) →
  raw ≠ "" →
  MODELS !! index_name self = Some cls →
  parse_raw cls raw = Some doc →
  get_by_id doc_id w = (Returned (Some doc), sent (GET (index_name self +:+ doc_id)) w)
  ∧ es_log (get_by_id doc_id w).2 = es_log w.
Proof.
  intros Hget Hlive Hraw Hcls Hdoc.
  rewrite (get_by_id_hit _ _ _ _ Hget Hlive Hraw), Hcls, Hdoc. by split.
Qed.

(** A miss that the backend answers with a record the class takes: the
    write raises, the record is not returned, and the world is left with the
    GET and the backend call. *)
Lemma get_by_id_fetch doc_id d cls doc (w : World Body) :
  let key := index_name self +:+ doc_id in
  redis_fault (GET key) = None →
  (live w key = None ∨ ∃ exp, live w key = Some (RStr "" exp)) →
  es_get elastic (index_name self) doc_id = Returned d →
  MODELS !! index_name self = Some cls →
  construct cls (_source d) = Some doc →
  get_by_id doc_id w =
    (Raised TypeError, asked (EsGet (index_name self) doc_id) (sent (GET key) w)).
Proof.
  intros key Hget Hmiss Hes Hcls Hsrc.
  rewrite (get_by_id_miss _ _ Hget Hmiss), _get_item_from_elastic_run, Hes, Hcls, Hsrc.
  cbn [fst snd]. by rewrite _put_item_to_cache_run.
Qed.

(** C5. For an identifier absent from the cache: when the backend reports
    not-found, [get_by_id] returns None as a value; any other exception of
    the backend, and any failure of the cache on the GET, reaches the caller
    as it was raised. *)
Theorem get_by_id_absent_or_failure doc_id (w : World Body) :
  let key := index_name self +:+ doc_id in
  live w key = None →
  (redis_fault (GET key) = None →
   es_get elastic (index_name self) doc_id = Raised NotFoundError →
   get_by_id doc_id w =
     (Returned None, asked (EsGet (index_name self) doc_id) (sent (GET key) w)))
  ∧ (∀ e, redis_fault (GET key) = None →
       es_get elastic (index_name self) doc_id = Raised e →
       e ≠ NotFoundError →
       (get_by_id doc_id w).1 = Raised e)
  ∧ (∀ e, redis_fault (GET key) = Some e → (get_by_id doc_id w).1 = Raised e).
Proof.
  intros key Hmiss. repeat split.
  - intros Hget Hes.
    by rewrite (get_by_id_miss _ _ Hget (or_introl Hmiss)), _get_item_from_elastic_run, Hes.
  - intros e Hget Hes Hne.
    rewrite (get_by_id_miss _ _ Hget (or_introl Hmiss)), _get_item_from_elastic_run, Hes.
    by destruct e.
  - intros e Hget. unfold get_by_id. rewrite _get_item_from_cache_is_get.
    erewrite bind_raised; [reflexivity|]. by apply command_fault.
Qed.

(** C9. The existence check of the cache lookup is a coroutine object on
    the bare doc_id that is never awaited: it is truthy, sends nothing, and
    the lookup is the GET of index_name + doc_id.  Whether [get_by_id] goes
    to the backend depends on the value of that GET alone: no backend call
    when it is a payload (a non-empty one), one backend call when it is
    None, and worlds that agree on that key give the same outcome. *)
Theorem cache_hit_decided_by_get doc_id (w : World Body) :
  let key := index_name self +:+ doc_id in
  redis_fault (GET key) = None →
  truthy (redis_exists doc_id) = true
  ∧ _get_item_from_cache doc_id w = await (redis_get key) w
  ∧ redis_log (_get_item_from_cache doc_id w).2 = (redis_log w ++ [GET key])%list
  ∧ (∀ raw exp, live w key = Some (RStr raw exp) → raw ≠ "" →
       es_log (get_by_id doc_id w).2 = es_log w)
  ∧ (live w key = None →
       es_log (get_by_id doc_id w).2 = (es_log w ++ [EsGet (index_name self) doc_id])%list)
  ∧ (∀ w' : World Body, live w' key = live w key →
       (get_by_id doc_id w').1 = (get_by_id doc_id w).1).
Proof.
  intros key Hget. repeat split.
  - rewrite _get_item_from_cache_is_get, await_redis_get by done. reflexivity.
  - intros raw exp Hlive Hraw. by rewrite (get_by_id_hit _ _ _ _ Hget Hlive Hraw).
  - intros Hmiss. rewrite (get_by_id_miss _ _ Hget (or_introl Hmiss)), _get_item_from_elastic_run.
    cbn [fst snd].
    destruct (es_get elastic (index_name self) doc_id) as [d|e]; [|by destruct e].
    destruct (MODELS !! index_name self) as [cls|]; [|reflexivity].
    destruct (construct cls _) as [doc|]; [|reflexivity].
    by rewrite _put_item_to_cache_run.
  - intros w' Hsame. unfold key in *.
    destruct (live w _) as [[raw exp|l]|] eqn:Hlive.
    + destruct (decide (raw = "")) as [->|Hraw].
      * rewrite (get_by_id_miss _ _ Hget (or_intror (ex_intro _ exp Hlive))),
                (get_by_id_miss _ _ Hget (or_intror (ex_intro _ exp Hsame))).
        rewrite !_get_item_from_elastic_run. cbn [fst snd].
        destruct (es_get elastic (index_name self) doc_id) as [d|e]; [|by destruct e].
        destruct (MODELS !! index_name self) as [cls|]; [|reflexivity].
        destruct (construct cls _) as [doc|]; [|reflexivity].
        by rewrite !_put_item_to_cache_run.
      * by rewrite (get_by_id_hit _ _ _ _ Hget Hlive Hraw),
                   (get_by_id_hit _ _ _ _ Hget Hsame Hraw).
    + assert (Hwrong : ∀ v : World Body,
                live v (index_name self +:+ doc_id) = Some (RList l) →
                (get_by_id doc_id v).1 = Raised ResponseError).
      { intros v Hv. unfold get_by_id. rewrite _get_item_from_cache_is_get.
        erewrite bind_raised; [reflexivity|].
        rewrite await_redis_get by done. by rewrite Hv. }
      by rewrite (Hwrong w Hlive), (Hwrong w' Hsame).
    + rewrite (get_by_id_miss _ _ Hget (or_introl Hlive)),
              (get_by_id_miss _ _ Hget (or_introl Hsame)).
      rewrite !_get_item_from_elastic_run. cbn [fst snd].
      destruct (es_get elastic (index_name self) doc_id) as [d|e]; [|by destruct e].
      destruct (MODELS !! index_name self) as [cls|]; [|reflexivity].
      destruct (construct cls _) as [doc|]; [|reflexivity].
      by rewrite !_put_item_to_cache_run.
Qed.

(** ** The range read *)

Lemma lrange_slice_nil {A} start stop : lrange_slice (@nil A) start stop = [].
Proof.
  unfold lrange_slice. cbn [length Z.of_nat].
  destruct (_ || _); [reflexivity|]. by rewrite drop_nil, take_nil.
Qed.

(** From position 0 and up to a stop that is not negative, the read is
    the first stop + 1 entries. *)
Lemma lrange_slice_take {A} (l : list A) stop :
  0 ≤ stop → lrange_slice l 0 stop = take (Z.to_nat (stop + 1)) l.
Proof.
  intros Hstop. destruct l as [|x l]; [by rewrite lrange_slice_nil, take_nil|].
  unfold lrange_slice. set (llen := Z.of_nat (length (x :: l))).
  assert (0 < llen) by (unfold llen; cbn [length]; lia).
  do 2 (change (0 <? 0) with false; cbv iota).
  rewrite (proj2 (Z.ltb_ge stop 0)) by lia. cbv iota.
  rewrite (proj2 (Z.ltb_ge stop 0)) by lia.
  rewrite (proj2 (Z.leb_gt llen 0)) by lia. cbn [orb].
  rewrite drop_0. destruct (Z.leb_spec llen stop).
  - rewrite !take_ge; [reflexivity|unfold llen in *; lia..].
  - do 2 f_equal. lia.
Qed.

(** Read from position 0, whatever the stop, what comes back is an initial
    segment of the list. *)
Lemma lrange_slice_prefix {A} (l : list A) stop : lrange_slice l 0 stop `prefix_of` l.
Proof.
  unfold lrange_slice. do 2 (change (0 <? 0) with false; cbv iota).
  destruct (_ || _); [apply prefix_nil|]. rewrite drop_0. apply prefix_take.
Qed.

Lemma lrange_slice_all {A} (l : list A) stop :
  0 ≤ stop → Z.of_nat (length l) ≤ stop + 1 → lrange_slice l 0 stop = l.
Proof. intros H0 Hlen. rewrite lrange_slice_take by done. apply take_ge. lia. Qed.

(** A list longer than the stop gives stop + 1 entries. *)
Lemma lrange_slice_length {A} (l : list A) stop :
  0 ≤ stop → stop < Z.of_nat (length l) →
  Z.of_nat (length (lrange_slice l 0 stop)) = stop + 1.
Proof. intros H0 Hlen. rewrite lrange_slice_take, length_take by done. lia. Qed.

Lemma lrange_slice_fmap {A B} (f : A → B) (l : list A) start stop :
  lrange_slice (f <$> l) start stop = f <$> lrange_slice l start stop.
Proof.
  unfold lrange_slice. rewrite length_fmap.
  destruct (_ || _); [reflexivity|]. by rewrite fmap_take, fmap_drop.
Qed.

(** ** Fetch by query *)

(** A comprehension that looks the class up for each item: nothing is
    looked up for no item; otherwise the first failure is the result. *)
Lemma comprehension_run {A} (f : ModelClass Source Doc → A → option Doc)
    (items : list A) (w : World Body) :
  comprehension (λ item, cls ← subscript MODELS (index_name self);
                         validated (f cls item)) items w =
    (match items with
     | [] => Returned []
     | _ :: _ =>
       match MODELS !! index_name self with
       | None => Raised (KeyError (index_name self))
       | Some cls =>
         match mapM (f cls) items with
         | Some docs => Returned docs
         | None => Raised ValidationError
         end
       end
     end, w).
Proof.
  set (g := λ item : A, cls ← subscript MODELS (index_name self);
                        validated (f cls item)).
  destruct (MODELS !! index_name self) as [cls|] eqn:Hcls.
  - assert (Hg : ∀ x v, g x v =
      (match f cls x with Some y => Returned y | None => Raised ValidationError end, v)).
    { intros x v. unfold g. erewrite bind_returned by by apply subscript_bound.
      by destruct (f cls x). }
    assert (Hgo : ∀ xs,
      comprehension g xs w =
        (match mapM (f cls) xs with
         | Some docs => Returned docs
         | None => Raised ValidationError
         end, w)).
    { induction xs as [|x xs IH]; [reflexivity|].
      change (comprehension g (x :: xs))
        with (y ← g x; k ← comprehension g xs; mret (y :: k)).
      change (mapM (f cls) (x :: xs))
        with (y ← f cls x; k ← mapM (f cls) xs; mret (y :: k)).
      destruct (f cls x) as [y|] eqn:Hfx.
      - erewrite bind_returned by by rewrite Hg, Hfx.
        destruct (mapM (f cls) xs) as [k|].
        + by erewrite bind_returned by exact IH.
        + by erewrite bind_raised by exact IH.
      - by erewrite bind_raised by by rewrite Hg, Hfx. }
    rewrite Hgo. by destruct items.
  - destruct items as [|x xs]; [reflexivity|].
    change (comprehension g (x :: xs))
      with (y ← g x; k ← comprehension g xs; mret (y :: k)).
    erewrite bind_raised; [reflexivity|].
    unfold g. erewrite bind_raised; [reflexivity|]. by apply subscript_unbound.
Qed.

Lemma _get_data_from_elastic_run body index (w : World Body) :
  _get_data_from_elastic body index w =
    (match es_search elastic index body with
     | Raised NotFoundError => Returned None
     | Raised e => Raised e
     | Returned [] => Returned (Some [])
     | Returned hits =>
       match MODELS !! index_name self with
       | None => Raised (KeyError (index_name self))
       | Some cls =>
         match mapM (λ h, construct cls (_source h)) hits with
         | Some docs => Returned (Some docs)
         | None => Raised ValidationError
         end
       end
     end, asked (EsSearch index body) w).
Proof.
  unfold _get_data_from_elastic, try_except_NotFoundError, elastic_search, await.
  unfold mbind at 1. unfold M_bind at 1.
  destruct (es_search elastic index body) as [hits|e]; [|by destruct e].
  unfold mbind, M_bind.
  rewrite (comprehension_run (λ cls h, construct cls (_source h))).
  destruct hits as [|h hits]; [reflexivity|].
  destruct (MODELS !! index_name self) as [cls|]; [|reflexivity].
  by destruct (mapM _ _).
Qed.

Lemma _get_full_data_from_cache_run key size (w : World Body) :
  redis_fault (LRANGE key 0 size) = None →
  _get_full_data_from_cache key size w =
    (match live w key with
     | None => Returned []
     | Some (RList l) => Returned (lrange_slice l 0 size)
     | Some (RStr _ _) => Raised ResponseError
     end, sent (LRANGE key 0 size) w).
Proof. intros H. unfold _get_full_data_from_cache. by apply await_redis_lrange. Qed.

(** [_get_data] served from the cache: what was read goes through the
    bound class, item by item. *)
Lemma _get_data_served body size idx l (w : World Body) :
  let key := _get_hash (py_str body +:+ effective_index idx) in
  redis_fault (LRANGE key 0 size) = None →
  live w key = Some (RList l) →
  lrange_slice l 0 size ≠ [] →
  _get_data body size idx w =
    (match MODELS !! index_name self with
     | None => Raised (KeyError (index_name self))
     | Some cls =>
       match mapM (parse_raw cls) (lrange_slice l 0 size) with
       | Some docs => Returned (Some docs)
       | None => Raised ValidationError
       end
     end, sent (LRANGE key 0 size) w).
Proof.
  intros key Hup Hlive Hread. unfold _get_data. fold key.
  erewrite bind_returned;
    [|rewrite _get_full_data_from_cache_run by done; by rewrite Hlive].
  destruct (lrange_slice l 0 size) as [|raw raws] eqn:Hslice; [done|].
  cbn [truthy truthy_list negb].
  unfold mbind, M_bind. rewrite (comprehension_run parse_raw).
  destruct (MODELS !! index_name self) as [cls|]; [|reflexivity].
  by destruct (mapM _ _).
Qed.

(** [_get_data] when the read brings nothing: the backend is searched, and
    a result that is not empty is appended at the key. *)
Lemma _get_data_unserved body size idx (w : World Body) :
  let key := _get_hash (py_str body +:+ effective_index idx) in
  redis_fault (LRANGE key 0 size) = None →
  (live w key = None
   ∨ ∃ l, live w key = Some (RList l) ∧ lrange_slice l 0 size = []) →
  _get_data body size idx w =
    let w0 := sent (LRANGE key 0 size) w in
    let w1 := asked (EsSearch (effective_index idx) body) w0 in
    match (_get_data_from_elastic body (effective_index idx) w0).1 with
    | Returned None | Returned (Some []) => (Returned None, w1)
    | Returned (Some items) =>
      match (_put_full_data_to_cache (json <$> items) key w1).1 with
      | Returned _ =>
        (Returned (Some items), (_put_full_data_to_cache (json <$> items) key w1).2)
      | Raised e => (Raised e, (_put_full_data_to_cache (json <$> items) key w1).2)
      end
    | Raised e => (Raised e, w1)
    end.
Proof.
  intros key Hup Hlive. unfold _get_data. fold key.
  erewrite bind_returned with (a := []).
  2:{ rewrite _get_full_data_from_cache_run by done.
      by destruct Hlive as [->|(l & -> & ->)]. }
  cbn [truthy truthy_list negb].
  unfold mbind at 1. unfold M_bind at 1.
  rewrite _get_data_from_elastic_run. cbn [fst snd].
  destruct (es_search elastic (effective_index idx) body) as [hits|e];
    [|by destruct e].
  destruct hits as [|h hits]; [reflexivity|].
  destruct (MODELS !! index_name self) as [cls|]; [|reflexivity].
  destruct (mapM _ _) as [[|doc docs]|]; [reflexivity| |reflexivity].
  cbn [truthy truthy_option truthy_list negb]. run_monad.
  by destruct (_put_full_data_to_cache _ _ _) as [[[]|e] w2].
Qed.

Lemma _put_full_data_to_cache_run raw raws key (w : World Body) :
  redis_fault (RPUSH key (raw :: raws)) = None →
  live w key = None →
  _put_full_data_to_cache (raw :: raws) key w =
    (Returned (),
     with_store (<[key := RList (raw :: raws)]> (store w))
                (sent (RPUSH key (raw :: raws)) w)).
Proof.
  intros Hup Hlive. unfold _put_full_data_to_cache, await, redis_rpush, command.
  run_monad. rewrite Hup.
  change (live (sent (RPUSH key (raw :: raws)) w) key) with (live w key).
  by rewrite Hlive.
Qed.

(** A list in the store does not expire. *)
Lemma live_insert_list key l st (w : World Body) :
  store w = <[key := RList l]> st → live w key = Some (RList l).
Proof. intros H. unfold live. by rewrite H, lookup_insert_eq. Qed.

(** The first [_get_data] of a query whose backend search brings records:
    all of them are returned, in the order of the hits, and their
    serializations are appended in that order. *)
Lemma _get_data_fill body size idx hits cls recs (w : World Body) :
  let key := _get_hash (py_str body +:+ effective_index idx) in
  (∀ c, redis_fault c = None) →
  live w key = None →
  es_search elastic (effective_index idx) body = Returned hits →
  MODELS !! index_name self = Some cls →
  mapM (λ h, construct cls (_source h)) hits = Some recs →
  recs ≠ [] →
  _get_data body size idx w =
    (Returned (Some recs),
     with_store (<[key := RList (json <$> recs)]> (store w))
       (sent (RPUSH key (json <$> recs))
          (asked (EsSearch (effective_index idx) body)
             (sent (LRANGE key 0 size) w)))).
Proof.
  intros key Hup Hlive Hes Hcls Hrecs Hne.
  rewrite (_get_data_unserved _ _ _ _ (Hup _) (or_introl Hlive)). cbv zeta.
  rewrite _get_data_from_elastic_run, Hes. cbn [fst snd].
  destruct hits as [|h hits]; [by injection Hrecs as <-|].
  rewrite Hcls, Hrecs.
  destruct recs as [|doc docs]; [done|].
  rewrite fmap_cons.
  by rewrite _put_full_data_to_cache_run by first [apply Hup | exact Hlive].
Qed.

(** A later [_get_data] of the query, on the list left by the first: what
    the range read brings is deserialized in the stored order. *)
Lemma _get_data_replay body size idx cls recs (w : World Body) :
  let key := _get_hash (py_str body +:+ effective_index idx) in
  redis_fault (LRANGE key 0 size) = None →
  live w key = Some (RList (json <$> recs)) →
  MODELS !! index_name self = Some cls →
  Forall (λ d, parse_raw cls (json d) = Some d) recs →
  lrange_slice recs 0 size ≠ [] →
  _get_data body size idx w =
    (Returned (Some (lrange_slice recs 0 size)), sent (LRANGE key 0 size) w).
Proof.
  intros key Hup Hlive Hcls Hrt Hread.
  rewrite (_get_data_served _ _ _ _ _ Hup Hlive).
  - rewrite Hcls, lrange_slice_fmap, mapM_fmap_Forall_Some; [done|].
    destruct (lrange_slice_prefix recs size) as [rest Hrest].
    rewrite Hrest in Hrt. by apply Forall_app in Hrt as [? _].
  - rewrite lrange_slice_fmap. by destruct (lrange_slice recs 0 size).
Qed.

(** C3 (as amended). From a cache with nothing at the derived key, when the
    backend search brings at least one and at most [size] records and the
    codec reads back what it writes, two successive [_get_data] of the same
    body, size and index return the same sequence, search the backend once
    in all, and the second is the range read at
    str(hash(str(body) + index)). *)
Theorem _get_data_twice_one_search body size idx hits cls recs (w : World Body) :
  let key := _get_hash (py_str body +:+ effective_index idx) in
  (∀ c, redis_fault c = None) →
  live w key = None →
  es_search elastic (effective_index idx) body = Returned hits →
  MODELS !! index_name self = Some cls →
  mapM (λ h, construct cls (_source h)) hits = Some recs →
  Forall (λ d, parse_raw cls (json d) = Some d) recs →
  recs ≠ [] →
  Z.of_nat (length recs) ≤ size →
  let first := _get_data body size idx w in
  let second := _get_data body size idx first.2 in
  first.1 = Returned (Some recs)
  ∧ second.1 = Returned (Some recs)
  ∧ es_log second.2 = (es_log w ++ [EsSearch (effective_index idx) body])%list
  ∧ redis_log second.2 = (redis_log first.2 ++ [LRANGE key 0 size])%list
  ∧ key = py_str_int (py_hash (py_str body +:+ effective_index idx)).
Proof.
  intros key Hup Hlive Hes Hcls Hrecs Hrt Hne Hlen first second.
  pose proof (_get_data_fill body size idx hits cls recs w Hup Hlive Hes Hcls Hrecs Hne)
    as Hfirst.
  fold key in Hfirst. fold first in Hfirst.
  assert (Hall : lrange_slice recs 0 size = recs).
  { apply lrange_slice_all; lia. }
  assert (Hsecond : second = (Returned (Some recs), sent (LRANGE key 0 size) first.2)).
  { unfold second. rewrite <- Hall at 1.
    apply (_get_data_replay body size idx cls recs); [apply Hup| |done|done|by rewrite Hall].
    eapply live_insert_list. by rewrite Hfirst. }
  rewrite Hsecond, Hfirst. by repeat split.
Qed.

(** C4 (as amended). The first [_get_data] of a query returns the records
    of the backend's hits in the order of the hits.  A later [_get_data] of
    the same body and index that is served from the cache returns what its
    range read covers of them, an initial segment in that same order, with
    no search of the backend; all of them when they are at most the size
    asked for. *)
Theorem _get_data_preserves_order body size size' idx hits cls recs (w : World Body) :
  let key := _get_hash (py_str body +:+ effective_index idx) in
  (∀ c, redis_fault c = None) →
  live w key = None →
  es_search elastic (effective_index idx) body = Returned hits →
  MODELS !! index_name self = Some cls →
  mapM (λ h, construct cls (_source h)) hits = Some recs →
  Forall (λ d, parse_raw cls (json d) = Some d) recs →
  recs ≠ [] →
  let first := _get_data body size idx w in
  let later := _get_data body size' idx first.2 in
  first.1 = Returned (Some recs)
  ∧ Forall2 (λ h d, construct cls (_source h) = Some d) hits recs
  ∧ live first.2 key = Some (RList (json <$> recs))
  ∧ (lrange_slice recs 0 size' ≠ [] →
       later.1 = Returned (Some (lrange_slice recs 0 size'))
       ∧ es_log later.2 = es_log first.2)
  ∧ lrange_slice recs 0 size' `prefix_of` recs
  ∧ (Z.of_nat (length recs) ≤ size' → later.1 = Returned (Some recs)).
Proof.
  intros key Hup Hlive Hes Hcls Hrecs Hrt Hne first later.
  pose proof (_get_data_fill body size idx hits cls recs w Hup Hlive Hes Hcls Hrecs Hne)
    as Hfirst.
  fold key in Hfirst. fold first in Hfirst.
  assert (Hkept : live first.2 key = Some (RList (json <$> recs))).
  { eapply live_insert_list. by rewrite Hfirst. }
  assert (Hlater : lrange_slice recs 0 size' ≠ [] →
    later = (Returned (Some (lrange_slice recs 0 size')),
             sent (LRANGE key 0 size') first.2)).
  { intros Hread. by apply (_get_data_replay body size' idx cls recs). }
  split_and!.
  - by rewrite Hfirst.
  - by apply mapM_Some.
  - exact Hkept.
  - intros Hread. by rewrite (Hlater Hread).
  - apply lrange_slice_prefix.
  - intros Hfit.
    assert (Hall : lrange_slice recs 0 size' = recs) by (apply lrange_slice_all; lia).
    rewrite Hlater, Hall; [done|by rewrite Hall].
Qed.

(** C6. With nothing to read at the derived key, a backend search that
    brings no hit or raises not-found makes [_get_data] return None; the
    store is as it was and the range read is the only command sent. *)
Theorem _get_data_absent body size idx (w : World Body) :
  let key := _get_hash (py_str body +:+ effective_index idx) in
  redis_fault (LRANGE key 0 size) = None →
  live w key = None ∨ live w key = Some (RList []) →
  es_search elastic (effective_index idx) body = Returned []
  ∨ es_search elastic (effective_index idx) body = Raised NotFoundError →
  _get_data body size idx w =
    (Returned None,
     asked (EsSearch (effective_index idx) body) (sent (LRANGE key 0 size) w))
  ∧ store (_get_data body size idx w).2 = store w
  ∧ redis_log (_get_data body size idx w).2 = (redis_log w ++ [LRANGE key 0 size])%list.
Proof.
  intros key Hup Hlive Hes.
  assert (Hrun : _get_data body size idx w =
    (Returned None,
     asked (EsSearch (effective_index idx) body) (sent (LRANGE key 0 size) w))).
  { rewrite (_get_data_unserved body size idx w Hup).
    - cbv zeta. rewrite _get_data_from_elastic_run. by destruct Hes as [->| ->].
    - destruct Hlive as [?|?]; [by left|right].
      exists []. by rewrite lrange_slice_nil. }
  by rewrite Hrun.
Qed.

(** C8 (as amended). With a class bound to the index, a payload that the
    class rejects reaches the caller as the validation error, not as None:
    a non-empty cached payload and a backend document in [get_by_id], an
    entry that the range read brings and a backend hit in [_get_data]. *)
Theorem deserialization_failure_propagates cls (w : World Body) :
  MODELS !! index_name self = Some cls →
  (∀ doc_id raw exp,
     redis_fault (GET (index_name self +:+ doc_id)) = None →
     live w (index_name self +:+ doc_id) = Some (RStr raw exp) →
     raw ≠ "" →
     parse_raw cls raw = None →
     (get_by_id doc_id w).1 = Raised ValidationError)
  ∧ (∀ doc_id d,
       redis_fault (GET (index_name self +:+ doc_id)) = None →
       live w (index_name self +:+ doc_id) = None →
       es_get elastic (index_name self) doc_id = Returned d →
       construct cls (_source d) = None →
       (get_by_id doc_id w).1 = Raised ValidationError)
  ∧ (∀ body size idx l raw,
       let key := _get_hash (py_str body +:+ effective_index idx) in
       redis_fault (LRANGE key 0 size) = None →
       live w key = Some (RList l) →
       raw ∈ lrange_slice l 0 size →
       parse_raw cls raw = None →
       (_get_data body size idx w).1 = Raised ValidationError)
  ∧ (∀ body size idx hits h,
       let key := _get_hash (py_str body +:+ effective_index idx) in
       redis_fault (LRANGE key 0 size) = None →
       live w key = None →
       es_search elastic (effective_index idx) body = Returned hits →
       h ∈ hits →
       construct cls (_source h) = None →
       (_get_data body size idx w).1 = Raised ValidationError).
Proof.
  intros Hcls. split_and!.
  - intros doc_id raw exp Hget Hlive Hraw Hbad.
    by rewrite (get_by_id_hit _ _ _ _ Hget Hlive Hraw), Hcls, Hbad.
  - intros doc_id d Hget Hmiss Hes Hbad.
    rewrite (get_by_id_miss _ _ Hget (or_introl Hmiss)), _get_item_from_elastic_run.
    by rewrite Hes, Hcls, Hbad.
  - intros body size idx l raw key Hup Hlive Hin Hbad.
    rewrite (_get_data_served body size idx l w Hup Hlive).
    + rewrite Hcls. rewrite (proj2 (mapM_None _ _)); [done|].
      apply Exists_exists. by exists raw.
    + intros Hnil. rewrite Hnil in Hin. by apply elem_of_nil in Hin.
  - intros body size idx hits h key Hup Hmiss Hes Hin Hbad.
    rewrite (_get_data_unserved body size idx w Hup (or_introl Hmiss)). cbv zeta.
    rewrite _get_data_from_elastic_run, Hes. cbn [fst snd].
    destruct hits as [|h0 hits]; [by apply elem_of_nil in Hin|].
    rewrite Hcls. rewrite (proj2 (mapM_None _ _)); [done|].
    apply Exists_exists. by exists h.
Qed.

(** C10. Deserialization goes through MODELS[index_name]: bound only for
    "movies", "persons" and "genres".  A service with any other index_name
    raises KeyError on a cache hit and on a backend document in [get_by_id],
    on a cache read that brings entries and on a backend search that brings
    hits in [_get_data]. *)
Theorem unbound_index_name_fails (w : World Body) :
  index_name self ≠ "movies" →
  index_name self ≠ "persons" →
  index_name self ≠ "genres" →
  (∀ doc_id raw exp,
     redis_fault (GET (index_name self +:+ doc_id)) = None →
     live w (index_name self +:+ doc_id) = Some (RStr raw exp) →
     raw ≠ "" →
     (get_by_id doc_id w).1 = Raised (KeyError (index_name self)))
  ∧ (∀ doc_id d,
       redis_fault (GET (index_name self +:+ doc_id)) = None →
       live w (index_name self +:+ doc_id) = None →
       es_get elastic (index_name self) doc_id = Returned d →
       (get_by_id doc_id w).1 = Raised (KeyError (index_name self)))
  ∧ (∀ body size idx l,
       let key := _get_hash (py_str body +:+ effective_index idx) in
       redis_fault (LRANGE key 0 size) = None →
       live w key = Some (RList l) →
       lrange_slice l 0 size ≠ [] →
       (_get_data body size idx w).1 = Raised (KeyError (index_name self)))
  ∧ (∀ body size idx h hits,
       let key := _get_hash (py_str body +:+ effective_index idx) in
       redis_fault (LRANGE key 0 size) = None →
       live w key = None →
       es_search elastic (effective_index idx) body = Returned (h :: hits) →
       (_get_data body size idx w).1 = Raised (KeyError (index_name self)))
  ∧ (∀ k, is_Some (MODELS !! k) ↔ k = "movies" ∨ k = "persons" ∨ k = "genres").
Proof.
  intros Hm Hp Hg.
  pose proof (MODELS_unbound _ Hm Hp Hg) as Hnone. split_and!.
  - intros doc_id raw exp Hget Hlive Hraw.
    by rewrite (get_by_id_hit _ _ _ _ Hget Hlive Hraw), Hnone.
  - intros doc_id d Hget Hmiss Hes.
    rewrite (get_by_id_miss _ _ Hget (or_introl Hmiss)), _get_item_from_elastic_run.
    by rewrite Hes, Hnone.
  - intros body size idx l key Hup Hlive Hread.
    by rewrite (_get_data_served body size idx l w Hup Hlive Hread), Hnone.
  - intros body size idx h hits key Hup Hmiss Hes.
    rewrite (_get_data_unserved body size idx w Hup (or_introl Hmiss)). cbv zeta.
    by rewrite _get_data_from_elastic_run, Hes, Hnone.
  - intros k. split.
    + intros Hsome.
      destruct (decide (k = "movies")) as [|Hkm]; [by left|].
      destruct (decide (k = "persons")) as [|Hkp]; [by right; left|].
      destruct (decide (k = "genres")) as [|Hkg]; [by right; right|].
      rewrite (MODELS_unbound _ Hkm Hkp Hkg) in Hsome. by destruct Hsome.
    + intros [->|[->| ->]]; unfold MODELS.
      * rewrite lookup_insert_eq. by eexists.
      * rewrite lookup_insert_ne, lookup_insert_eq by done. by eexists.
      * rewrite !lookup_insert_ne, lookup_insert_eq by done. by eexists.
Qed.

(** ** Beyond the claims: fetch by identifier *)

Lemma get_by_id_get_fault doc_id e (w : World Body) :
  redis_fault (GET (index_name self +:+ doc_id)) = Some e →
  get_by_id doc_id w = (Raised e, sent (GET (index_name self +:+ doc_id)) w).
Proof.
  intros Hget. unfold get_by_id. rewrite _get_item_from_cache_is_get.
  erewrite bind_raised; [reflexivity|]. by apply command_fault.
Qed.

Lemma get_by_id_wrong_type doc_id l (w : World Body) :
  redis_fault (GET (index_name self +:+ doc_id)) = None →
  live w (index_name self +:+ doc_id) = Some (RList l) →
  get_by_id doc_id w = (Raised ResponseError, sent (GET (index_name self +:+ doc_id)) w).
Proof.
  intros Hget Hlive. unfold get_by_id. rewrite _get_item_from_cache_is_get.
  erewrite bind_raised; [reflexivity|].
  rewrite await_redis_get by done. by rewrite Hlive.
Qed.

(** The worlds [get_by_id] can leave: the GET alone, or the GET and the
    backend call; a record comes back in the first only, and the store is
    never touched. *)
Lemma get_by_id_cases doc_id (w : World Body) :
  let key := index_name self +:+ doc_id in
  let w0 := sent (GET key) w in
  let w1 := asked (EsGet (index_name self) doc_id) w0 in
  (∃ o, get_by_id doc_id w = (o, w0))
  ∨ (∃ o, get_by_id doc_id w = (o, w1) ∧ ∀ doc, o ≠ Returned (Some doc)).
Proof.
  intros key w0 w1.
  destruct (redis_fault (GET key)) as [e|] eqn:Hget.
  { left. eexists. by apply get_by_id_get_fault. }
  assert (Hmiss : live w key = None ∨ (∃ exp, live w key = Some (RStr "" exp)) →
    ∃ o, get_by_id doc_id w = (o, w1) ∧ ∀ doc, o ≠ Returned (Some doc)).
  { intros Hlive. rewrite (get_by_id_miss _ _ Hget Hlive), _get_item_from_elastic_run.
    cbn [fst snd].
    destruct (es_get elastic (index_name self) doc_id) as [d|e].
    - destruct (MODELS !! index_name self) as [cls|]; [|by eexists].
      destruct (construct cls _) as [doc|]; [|by eexists].
      rewrite _put_item_to_cache_run. by eexists.
    - destruct e; by eexists. }
  destruct (live w key) as [[raw exp|l]|] eqn:Hlive.
  - destruct (decide (raw = "")) as [->|Hraw].
    + right. apply Hmiss. right. by exists exp.
    + left. eexists. by apply (get_by_id_hit _ _ _ _ Hget Hlive Hraw).
  - left. eexists. by apply (get_by_id_wrong_type _ l).
  - right. apply Hmiss. by left.
Qed.

(** X1. One [get_by_id] sends the GET and at most one SET after it, never an
    EXISTS, asks the backend at most once, and leaves the clock alone:
    nothing is retried, whatever fails. *)
Theorem get_by_id_io_bounded doc_id (w : World Body) :
  let key := index_name self +:+ doc_id in
  let w' := (get_by_id doc_id w).2 in
  (redis_log w' = (redis_log w ++ [GET key])%list
   ∨ ∃ doc, redis_log w' =
       (redis_log w ++ [GET key; SET (index_name self +:+ id_of doc) (json doc) 300])%list)
  ∧ (es_log w' = es_log w
     ∨ es_log w' = (es_log w ++ [EsGet (index_name self) doc_id])%list)
  ∧ now w' = now w.
Proof.
  intros key w'. unfold w'.
  destruct (get_by_id_cases doc_id w) as [[o H]|[o [H _]]];
    rewrite H; cbn [snd]; split_and!; cbn; eauto.
Qed.


(** X3. A miss that the backend answers with a record never gets as far as
    the cache: the write names the time to live [expire], a keyword that
    [set] of the client does not take, so [get_by_id] raises TypeError
    instead of returning the record, sends no SET and leaves the store as it
    was.  The id stays uncached, and the same happens at every later call. *)
Theorem get_by_id_miss_write_raises doc_id d cls doc dt (w : World Body) :
  let key := index_name self +:+ doc_id in
  redis_fault (GET key) = None →
  live w key = None →
  es_get elastic (index_name self) doc_id = Returned d →
  MODELS !! index_name self = Some cls →
  construct cls (_source d) = Some doc →
  let r := get_by_id doc_id w in
  let again := get_by_id doc_id (tick dt r.2) in
  r = (Raised TypeError, asked (EsGet (index_name self) doc_id) (sent (GET key) w))
  ∧ store r.2 = store w
  ∧ live (tick dt r.2) key = live (tick dt w) key
  ∧ (live (tick dt w) key = None →
       again.1 = Raised TypeError
       ∧ es_log again.2
           = (es_log w ++ [EsGet (index_name self) doc_id;
                           EsGet (index_name self) doc_id])%list).
Proof.
  intros key Hget Hmiss Hes Hcls Hsrc r again.
  pose proof (get_by_id_fetch doc_id d cls doc w Hget (or_introl Hmiss) Hes Hcls Hsrc)
    as Hrun.
  fold key in Hrun. fold r in Hrun.
  split_and!; [exact Hrun|by rewrite Hrun|by rewrite Hrun|].
  intros Hstill. unfold again.
  assert (Hlater : live (tick dt r.2) key = None) by by rewrite Hrun.
  rewrite (get_by_id_fetch doc_id d cls doc (tick dt r.2) Hget (or_introl Hlater)
             Hes Hcls Hsrc).
  rewrite Hrun. cbn. by rewrite <- app_assoc.
Qed.

(** X4. [get_by_id] never writes to the cache: whatever the world, the
    backend and the faults of the cache, the store after it is the store
    before it and the GET is the one command sent.  A record comes back from
    the cache only: when one is returned, the backend was not asked and the
    record is what the bound class reads in the non-empty value at the key. *)
Theorem get_by_id_never_writes doc_id (w : World Body) :
  let key := index_name self +:+ doc_id in
  let r := get_by_id doc_id w in
  store r.2 = store w
  ∧ redis_log r.2 = (redis_log w ++ [GET key])%list
  ∧ (∀ doc, r.1 = Returned (Some doc) →
       es_log r.2 = es_log w
       ∧ ∃ raw exp cls,
           live w key = Some (RStr raw exp) ∧ raw ≠ ""
           ∧ MODELS !! index_name self = Some cls
           ∧ parse_raw cls raw = Some doc).
Proof.
  intros key r. unfold r.
  destruct (get_by_id_cases doc_id w) as [[o H]|[o [H Ho]]].
  - rewrite H. split_and!; [done..|]. cbn [fst snd]. intros doc ->.
    split; [done|].
    destruct (redis_fault (GET key)) as [e|] eqn:Hget.
    { by rewrite (get_by_id_get_fault doc_id e w Hget) in H. }
    destruct (live w key) as [[raw exp|l]|] eqn:Hlive.
    + destruct (decide (raw = "")) as [->|Hraw].
      * rewrite (get_by_id_miss _ _ Hget (or_intror (ex_intro _ exp Hlive))) in H.
        exfalso. revert H. cbv zeta.
        destruct (_get_item_from_elastic doc_id _).1 as [[doc'|]|e];
          [rewrite _put_item_to_cache_run|..]; intros [= _ Hw];
          apply (f_equal es_log) in Hw; cbn in Hw;
          by apply (f_equal length) in Hw; rewrite length_app in Hw; cbn in Hw; lia.
      * rewrite (get_by_id_hit _ _ _ _ Hget Hlive Hraw) in H.
        destruct (MODELS !! index_name self) as [cls|]; [|by injection H].
        destruct (parse_raw cls raw) as [doc'|] eqn:Hparse; [|by injection H].
        injection H as ->. by exists raw, exp, cls.
    + by rewrite (get_by_id_wrong_type doc_id l w Hget Hlive) in H.
    + rewrite (get_by_id_miss _ _ Hget (or_introl Hlive)) in H.
      exfalso. revert H. cbv zeta.
      destruct (_get_item_from_elastic doc_id _).1 as [[doc'|]|e];
        [rewrite _put_item_to_cache_run|..]; intros [= _ Hw];
        apply (f_equal es_log) in Hw; cbn in Hw;
        by apply (f_equal length) in Hw; rewrite length_app in Hw; cbn in Hw; lia.
  - rewrite H. split_and!; [done..|]. cbn [fst]. intros doc ->. by destruct (Ho doc).
Qed.

(** ** Beyond the claims: fetch by query *)

Lemma _put_full_data_to_cache_cases raw raws key (w : World Body) :
  _put_full_data_to_cache (raw :: raws) key w =
    match redis_fault (RPUSH key (raw :: raws)) with
    | Some e => (Raised e, sent (RPUSH key (raw :: raws)) w)
    | None =>
      match live w key with
      | None =>
        (Returned (),
         with_store (<[key := RList (raw :: raws)]> (store w))
                    (sent (RPUSH key (raw :: raws)) w))
      | Some (RList l) =>
        (Returned (),
         with_store (<[key := RList (l ++ raw :: raws)]> (store w))
                    (sent (RPUSH key (raw :: raws)) w))
      | Some (RStr _ _) => (Raised ResponseError, sent (RPUSH key (raw :: raws)) w)
      end
    end.
Proof.
  unfold _put_full_data_to_cache, await, redis_rpush, command. run_monad.
  destruct (redis_fault _) as [e|]; [reflexivity|].
  change (live (sent (RPUSH key (raw :: raws)) w) key) with (live w key).
  by destruct (live w key) as [[v t|l]|].
Qed.

Lemma _get_data_lrange_fault body size idx e (w : World Body) :
  let key := _get_hash (py_str body +:+ effective_index idx) in
  redis_fault (LRANGE key 0 size) = Some e →
  _get_data body size idx w = (Raised e, sent (LRANGE key 0 size) w).
Proof.
  intros key Hfault. unfold _get_data. fold key.
  erewrite bind_raised; [reflexivity|].
  unfold _get_full_data_from_cache. by apply command_fault.
Qed.

Lemma _get_data_wrong_type body size idx v exp (w : World Body) :
  let key := _get_hash (py_str body +:+ effective_index idx) in
  redis_fault (LRANGE key 0 size) = None →
  live w key = Some (RStr v exp) →
  _get_data body size idx w = (Raised ResponseError, sent (LRANGE key 0 size) w).
Proof.
  intros key Hup Hlive. unfold _get_data. fold key.
  erewrite bind_raised; [reflexivity|].
  rewrite _get_full_data_from_cache_run by done. by rewrite Hlive.
Qed.

(** The worlds [_get_data] can leave: the range read alone; the read and
    the search, no record coming back; those and an RPUSH that failed; those
    and an RPUSH that appended what is returned. *)
Lemma _get_data_cases body size idx (w : World Body) :
  let key := _get_hash (py_str body +:+ effective_index idx) in
  let w0 := sent (LRANGE key 0 size) w in
  let w1 := asked (EsSearch (effective_index idx) body) w0 in
  (∃ o, _get_data body size idx w = (o, w0))
  ∨ (∃ o, _get_data body size idx w = (o, w1) ∧ ∀ items, o ≠ Returned (Some items))
  ∨ (∃ items e,
       _get_data body size idx w = (Raised e, sent (RPUSH key (json <$> items)) w1))
  ∨ (∃ items old,
       items ≠ []
       ∧ (live w key = None ∧ old = [] ∨ live w key = Some (RList old))
       ∧ _get_data body size idx w =
           (Returned (Some items),
            with_store (<[key := RList (old ++ (json <$> items))]> (store w))
              (sent (RPUSH key (json <$> items)) w1))).
Proof.
  intros key w0 w1.
  destruct (redis_fault (LRANGE key 0 size)) as [e|] eqn:Hup.
  { left. eexists. by apply _get_data_lrange_fault. }
  assert (Hunserved :
    (live w key = None ∨ ∃ l, live w key = Some (RList l) ∧ lrange_slice l 0 size = []) →
    (∃ o, _get_data body size idx w = (o, w1) ∧ ∀ items, o ≠ Returned (Some items))
    ∨ (∃ items e,
         _get_data body size idx w = (Raised e, sent (RPUSH key (json <$> items)) w1))
    ∨ (∃ items old,
         items ≠ []
         ∧ (live w key = None ∧ old = [] ∨ live w key = Some (RList old))
         ∧ _get_data body size idx w =
             (Returned (Some items),
              with_store (<[key := RList (old ++ (json <$> items))]> (store w))
                (sent (RPUSH key (json <$> items)) w1)))).
  { intros Hlive. rewrite (_get_data_unserved body size idx w Hup Hlive). cbv zeta.
    rewrite _get_data_from_elastic_run. cbn [fst snd]. fold key. fold w0. fold w1.
    destruct (es_search elastic (effective_index idx) body) as [[|h hits]|e].
    - left. by eexists.
    - destruct (MODELS !! index_name self) as [cls|]; [|left; by eexists].
      destruct (mapM _ _) as [[|doc docs]|]; [left; by eexists| |left; by eexists].
      rewrite fmap_cons, _put_full_data_to_cache_cases.
      change (live w1 key) with (live w key).
      destruct (redis_fault (RPUSH _ _)) as [e|].
      { right; left. exists (doc :: docs), e. by rewrite fmap_cons. }
      destruct Hlive as [Hnone|(l & Hl & _)].
      + rewrite Hnone. right; right. exists (doc :: docs), [].
        split_and!; [done|by left|by rewrite fmap_cons].
      + rewrite Hl. right; right. exists (doc :: docs), l.
        split_and!; [done|by right|by rewrite fmap_cons].
    - left. destruct e; by eexists. }
  destruct (live w key) as [[v exp|l]|] eqn:Hlive.
  - left. eexists. by apply (_get_data_wrong_type body size idx v exp).
  - destruct (lrange_slice l 0 size) as [|raw raws] eqn:Hslice.
    + right. apply Hunserved. right. by exists l.
    + left. eexists. apply (_get_data_served body size idx l w Hup Hlive).
      by rewrite Hslice.
  - right. apply Hunserved. by left.
Qed.

(** X6. One [_get_data] sends the range read and at most one RPUSH after
    it, searches the backend at most once, and leaves the clock alone:
    nothing is retried, whatever fails. *)
Theorem _get_data_io_bounded body size idx (w : World Body) :
  let key := _get_hash (py_str body +:+ effective_index idx) in
  let w' := (_get_data body size idx w).2 in
  (redis_log w' = (redis_log w ++ [LRANGE key 0 size])%list
   ∨ ∃ items, redis_log w' =
       (redis_log w ++ [LRANGE key 0 size; RPUSH key (json <$> items)])%list)
  ∧ (es_log w' = es_log w
     ∨ es_log w' = (es_log w ++ [EsSearch (effective_index idx) body])%list)
  ∧ now w' = now w.
Proof.
  intros key w'. unfold w'.
  destruct (_get_data_cases body size idx w)
    as [[o H]|[[o [H _]]|[(items & e & H)|(items & old & _ & _ & H)]]];
    rewrite H; cbn [snd]; split_and!; cbn; rewrite <- ?app_assoc; eauto.
Qed.

(** X7. [_get_data] changes the store at the derived key at most, and only
    by putting the serializations of the records it returns, in order, after
    what the list held.  Every other key is as it was, and so is the whole
    store when no records are returned. *)
Theorem _get_data_store_frame body size idx (w : World Body) :
  let key := _get_hash (py_str body +:+ effective_index idx) in
  let r := _get_data body size idx w in
  (∀ k, k ≠ key → store r.2 !! k = store w !! k)
  ∧ (store r.2 !! key = store w !! key
     ∨ ∃ items old,
         r.1 = Returned (Some items)
         ∧ (live w key = None ∧ old = [] ∨ live w key = Some (RList old))
         ∧ store r.2 !! key = Some (RList (old ++ (json <$> items))))
  ∧ ((∀ items, r.1 ≠ Returned (Some items)) → store r.2 = store w).
Proof.
  intros key r. unfold r.
  destruct (_get_data_cases body size idx w)
    as [[o H]|[[o [H Ho]]|[(items & e & H)|(items & old & Hne & Hold & H)]]];
    rewrite H; cbn [fst snd]; split_and!; try done; try by left.
  - intros k Hk. cbn. by apply lookup_insert_ne.
  - right. exists items, old. split_and!; [done..|]. cbn. apply lookup_insert_eq.
  - intros Hno. by destruct (Hno items).
Qed.

Lemma lrange_slice_cons_nonneg {A} (x : A) l stop :
  0 ≤ stop → ∃ y ys, lrange_slice (x :: l) 0 stop = y :: ys.
Proof.
  intros Hstop. rewrite lrange_slice_take by done.
  destruct (Z.to_nat (stop + 1)) as [|n] eqn:Hn; [lia|]. by eexists _, _.
Qed.

(** A stop further below zero than the list is long reads nothing. *)
Lemma lrange_slice_far_negative {A} (l : list A) stop :
  stop < - Z.of_nat (length l) → lrange_slice l 0 stop = [].
Proof.
  intros Hstop. unfold lrange_slice.
  do 2 (change (0 <? 0) with false; cbv iota).
  rewrite (proj2 (Z.ltb_lt stop 0)) by lia. cbv iota.
  by rewrite (proj2 (Z.ltb_lt (Z.of_nat (length l) + stop) 0)) by lia.
Qed.

(** The stop -1 is the last position: the read is the whole list. *)
Lemma lrange_slice_minus_one {A} (l : list A) : lrange_slice l 0 (-1) = l.
Proof.
  destruct l as [|x l]; [apply lrange_slice_nil|].
  unfold lrange_slice. set (llen := Z.of_nat (length (x :: l))).
  assert (0 < llen) by (unfold llen; cbn [length]; lia).
  do 2 (change (0 <? 0) with false; cbv iota).
  change (-1 <? 0) with true. cbv iota.
  rewrite (proj2 (Z.ltb_ge (llen + -1) 0)) by lia.
  rewrite (proj2 (Z.leb_gt llen 0)) by lia. cbn [orb].
  rewrite (proj2 (Z.leb_gt llen (llen + -1))) by lia.
  rewrite drop_0. apply take_ge. unfold llen. lia.
Qed.

(** X8. Failures of [_get_data] reach the caller as raised: a range read
    that fails or finds a string at the key (the backend is then not
    searched), a backend exception other than not-found, and an RPUSH that
    fails, in which case the records the backend brought are not returned and
    the store is as it was. *)
Theorem _get_data_failure_propagates body size idx (w : World Body) :
  let key := _get_hash (py_str body +:+ effective_index idx) in
  let r := _get_data body size idx w in
  (∀ e, redis_fault (LRANGE key 0 size) = Some e →
        r.1 = Raised e ∧ es_log r.2 = es_log w)
  ∧ (∀ v exp, redis_fault (LRANGE key 0 size) = None →
        live w key = Some (RStr v exp) →
        r.1 = Raised ResponseError ∧ es_log r.2 = es_log w)
  ∧ (∀ e, redis_fault (LRANGE key 0 size) = None →
        live w key = None →
        es_search elastic (effective_index idx) body = Raised e →
        e ≠ NotFoundError →
        r.1 = Raised e)
  ∧ (∀ e hits cls recs,
        redis_fault (LRANGE key 0 size) = None →
        live w key = None →
        es_search elastic (effective_index idx) body = Returned hits →
        MODELS !! index_name self = Some cls →
        mapM (λ h, construct cls (_source h)) hits = Some recs →
        recs ≠ [] →
        redis_fault (RPUSH key (json <$> recs)) = Some e →
        r.1 = Raised e ∧ store r.2 = store w).
Proof.
  intros key r. unfold r. split_and!.
  - intros e Hfault. by rewrite (_get_data_lrange_fault body size idx e w Hfault).
  - intros v exp Hup Hlive. by rewrite (_get_data_wrong_type body size idx v exp w Hup Hlive).
  - intros e Hup Hmiss Hes Hne.
    rewrite (_get_data_unserved body size idx w Hup (or_introl Hmiss)). cbv zeta.
    rewrite _get_data_from_elastic_run, Hes. by destruct e.
  - intros e hits cls recs Hup Hmiss Hes Hcls Hrecs Hne Hfault.
    rewrite (_get_data_unserved body size idx w Hup (or_introl Hmiss)). cbv zeta.
    rewrite _get_data_from_elastic_run, Hes. cbn [fst snd].
    destruct hits as [|h hits]; [by injection Hrecs as <-|].
    rewrite Hcls, Hrecs. destruct recs as [|doc docs]; [done|].
    rewrite fmap_cons in *. fold key.
    by rewrite _put_full_data_to_cache_cases, Hfault.
Qed.

(** X9. A list at the derived key that is not empty is final for every
    size from 0 up: [_get_data] reads it, never searches the backend and
    never writes, whatever becomes of the entries it read. *)
Theorem _get_data_cached_list_is_final body size idx x l (w : World Body) :
  let key := _get_hash (py_str body +:+ effective_index idx) in
  redis_fault (LRANGE key 0 size) = None →
  live w key = Some (RList (x :: l)) →
  0 ≤ size →
  let r := _get_data body size idx w in
  es_log r.2 = es_log w
  ∧ store r.2 = store w
  ∧ redis_log r.2 = (redis_log w ++ [LRANGE key 0 size])%list.
Proof.
  intros key Hup Hlive Hsize r. unfold r.
  destruct (lrange_slice_cons_nonneg x l size Hsize) as (y & ys & Hslice).
  rewrite (_get_data_served body size idx (x :: l) w Hup Hlive); [done|].
  by rewrite Hslice.
Qed.

(** X10. The list of a query carries no expiry: however much later the
    query is replayed, it is served from the cache and the backend is not
    searched. *)
Theorem _get_data_list_never_expires body size idx hits cls recs dt (w : World Body) :
  let key := _get_hash (py_str body +:+ effective_index idx) in
  (∀ c, redis_fault c = None) →
  live w key = None →
  es_search elastic (effective_index idx) body = Returned hits →
  MODELS !! index_name self = Some cls →
  mapM (λ h, construct cls (_source h)) hits = Some recs →
  Forall (λ d, parse_raw cls (json d) = Some d) recs →
  recs ≠ [] →
  Z.of_nat (length recs) ≤ size →
  let first := _get_data body size idx w in
  let later := _get_data body size idx (tick dt first.2) in
  later.1 = Returned (Some recs)
  ∧ es_log later.2 = es_log first.2
  ∧ store later.2 = store first.2.
Proof.
  intros key Hup Hlive Hes Hcls Hrecs Hrt Hne Hlen first later.
  pose proof (_get_data_fill body size idx hits cls recs w Hup Hlive Hes Hcls Hrecs Hne)
    as Hfirst.
  fold key in Hfirst. fold first in Hfirst.
  assert (Hkept : live (tick dt first.2) key = Some (RList (json <$> recs))).
  { eapply live_insert_list. by rewrite Hfirst. }
  assert (Hall : lrange_slice recs 0 size = recs) by (apply lrange_slice_all; lia).
  unfold later.
  rewrite (_get_data_replay body size idx cls recs (tick dt first.2) (Hup _) Hkept Hcls Hrt);
    rewrite Hall; by try done.
Qed.

(** X11. The list grows when a read brings nothing from a list that has
    entries, which a size further below zero than the list is long does: the
    backend is searched and its records are put after the entries that were
    there. *)
Theorem _get_data_negative_size_appends body size idx old hits cls recs (w : World Body) :
  let key := _get_hash (py_str body +:+ effective_index idx) in
  (∀ c, redis_fault c = None) →
  live w key = Some (RList old) →
  size < - Z.of_nat (length old) →
  es_search elastic (effective_index idx) body = Returned hits →
  MODELS !! index_name self = Some cls →
  mapM (λ h, construct cls (_source h)) hits = Some recs →
  recs ≠ [] →
  let r := _get_data body size idx w in
  r.1 = Returned (Some recs)
  ∧ es_log r.2 = (es_log w ++ [EsSearch (effective_index idx) body])%list
  ∧ store r.2 !! key = Some (RList (old ++ (json <$> recs))).
Proof.
  intros key Hup Hlive Hsize Hes Hcls Hrecs Hne r. unfold r.
  assert (Hnothing : lrange_slice old 0 size = []) by by apply lrange_slice_far_negative.
  rewrite (_get_data_unserved body size idx w (Hup _)
             (or_intror (ex_intro _ old (conj Hlive Hnothing)))). cbv zeta.
  rewrite _get_data_from_elastic_run, Hes. cbn [fst snd].
  destruct hits as [|h hits]; [by injection Hrecs as <-|].
  rewrite Hcls, Hrecs. destruct recs as [|doc docs]; [done|].
  rewrite fmap_cons in *. fold key.
  rewrite _put_full_data_to_cache_cases, Hup.
  change (live (asked _ (sent _ w)) key) with (live w key). rewrite Hlive.
  cbn. split_and!; [done..|]. apply lookup_insert_eq.
Qed.

(** X12. With size -1 the read has no bound: the replay returns every
    record of the list, however many. *)
Theorem _get_data_minus_one_reads_all body size idx hits cls recs (w : World Body) :
  let key := _get_hash (py_str body +:+ effective_index idx) in
  (∀ c, redis_fault c = None) →
  live w key = None →
  es_search elastic (effective_index idx) body = Returned hits →
  MODELS !! index_name self = Some cls →
  mapM (λ h, construct cls (_source h)) hits = Some recs →
  Forall (λ d, parse_raw cls (json d) = Some d) recs →
  recs ≠ [] →
  let first := _get_data body size idx w in
  let later := _get_data body (-1) idx first.2 in
  later.1 = Returned (Some recs) ∧ es_log later.2 = es_log first.2.
Proof.
  intros key Hup Hlive Hes Hcls Hrecs Hrt Hne first later.
  pose proof (_get_data_fill body size idx hits cls recs w Hup Hlive Hes Hcls Hrecs Hne)
    as Hfirst.
  fold key in Hfirst. fold first in Hfirst.
  assert (Hkept : live first.2 key = Some (RList (json <$> recs))).
  { eapply live_insert_list. by rewrite Hfirst. }
  unfold later.
  rewrite (_get_data_replay body (-1) idx cls recs first.2 (Hup _) Hkept Hcls Hrt);
    rewrite lrange_slice_minus_one; by try done.
Qed.

(** X13. Served from the cache with a size from 0 up, [_get_data] returns
    at most size + 1 records, and exactly size + 1 when the list is longer
    than size. *)
Theorem _get_data_served_length body size idx x l docs (w : World Body) :
  let key := _get_hash (py_str body +:+ effective_index idx) in
  redis_fault (LRANGE key 0 size) = None →
  live w key = Some (RList (x :: l)) →
  0 ≤ size →
  (_get_data body size idx w).1 = Returned (Some docs) →
  Z.of_nat (length docs) ≤ size + 1
  ∧ (size < Z.of_nat (length (x :: l)) → Z.of_nat (length docs) = size + 1).
Proof.
  intros key Hup Hlive Hsize Hres.
  destruct (lrange_slice_cons_nonneg x l size Hsize) as (y & ys & Hslice).
  rewrite (_get_data_served body size idx (x :: l) w Hup Hlive) in Hres;
    [|by rewrite Hslice].
  cbn [fst] in Hres.
  destruct (MODELS !! index_name self) as [cls|]; [|done].
  destruct (mapM _ _) as [docs'|] eqn:Hmap; [|done].
  injection Hres as ->. apply length_mapM in Hmap. rewrite <- Hmap.
  rewrite lrange_slice_take, length_take by done. split; [lia|].
  intros Hlong. lia.
Qed.

(** ** Beyond the claims: the keys *)

(** str(n) reads back as n. *)
Lemma py_str_int_parses n : NilZero.int_of_string (py_str_int n) = Some (Z.to_int n).
Proof.
  unfold py_str_int. apply NilZero.isi; destruct n; try done; cbn.
  - intros [= H]. by apply DecimalPos.Unsigned.to_uint_nonnil in H.
  - intros [= H]. by apply DecimalPos.Unsigned.to_uint_nonnil in H.
Qed.

Lemma py_str_int_inj a b : py_str_int a = py_str_int b → a = b.
Proof.
  intros H. apply DecimalZ.to_int_inj.
  apply (f_equal NilZero.int_of_string) in H.
  rewrite !py_str_int_parses in H. by injection H.
Qed.

(** X14. Two strings get the same cache key exactly when they hash the
    same: str() of the hash tells any two hash values apart. *)
Theorem _get_hash_same_key a b : _get_hash a = _get_hash b ↔ py_hash a = py_hash b.
Proof.
  unfold _get_hash. split; [apply py_str_int_inj|by intros ->].
Qed.

(** X15. Two queries whose body and index hash the same share one list:
    once the first is cached, the second is served the first one's records
    and the backend is not searched for it. *)
Theorem _get_data_collision_shares_entry body body' size idx idx' hits cls recs
    (w : World Body) :
  (∀ c, redis_fault c = None) →
  py_hash (py_str body' +:+ effective_index idx')
    = py_hash (py_str body +:+ effective_index idx) →
  live w (_get_hash (py_str body +:+ effective_index idx)) = None →
  es_search elastic (effective_index idx) body = Returned hits →
  MODELS !! index_name self = Some cls →
  mapM (λ h, construct cls (_source h)) hits = Some recs →
  Forall (λ d, parse_raw cls (json d) = Some d) recs →
  recs ≠ [] →
  Z.of_nat (length recs) ≤ size →
  let first := _get_data body size idx w in
  let other := _get_data body' size idx' first.2 in
  first.1 = Returned (Some recs)
  ∧ other.1 = Returned (Some recs)
  ∧ es_log other.2 = es_log first.2.
Proof.
  intros Hup Hsame Hlive Hes Hcls Hrecs Hrt Hne Hlen first other.
  pose proof (_get_data_fill body size idx hits cls recs w Hup Hlive Hes Hcls Hrecs Hne)
    as Hfirst.
  fold first in Hfirst.
  assert (Hkey : _get_hash (py_str body' +:+ effective_index idx')
                 = _get_hash (py_str body +:+ effective_index idx)).
  { unfold _get_hash. by rewrite Hsame. }
  assert (Hkept : live first.2 (_get_hash (py_str body' +:+ effective_index idx'))
                  = Some (RList (json <$> recs))).
  { rewrite Hkey. eapply live_insert_list. by rewrite Hfirst. }
  assert (Hall : lrange_slice recs 0 size = recs) by (apply lrange_slice_all; lia).
  unfold other.
  rewrite (_get_data_replay body' size idx' cls recs first.2 (Hup _) Hkept Hcls Hrt);
    rewrite Hall; [|done]. by rewrite Hfirst.
Qed.

Lemma bound_key_not_a_number doc_id n :
  index_name self = "movies" ∨ index_name self = "persons" ∨ index_name self = "genres" →
  index_name self +:+ doc_id ≠ py_str_int n.
Proof.
  intros Hbound Heq. apply (f_equal NilZero.int_of_string) in Heq.
  rewrite py_str_int_parses in Heq.
  destruct Hbound as [H|[H|H]]; rewrite H in Heq;
    [change ("movies" +:+ doc_id) with (String "m" ("ovies" +:+ doc_id)) in Heq
    |change ("persons" +:+ doc_id) with (String "p" ("ersons" +:+ doc_id)) in Heq
    |change ("genres" +:+ doc_id) with (String "g" ("enres" +:+ doc_id)) in Heq];
    simpl in Heq; destruct (NilEmpty.uint_of_string _) in Heq; discriminate.
Qed.

(** X16. For a service bound to "movies", "persons" or "genres", no key of
    a single record is the key of a query: the first starts with the index
    name, the second is a number. *)
Theorem single_and_list_keys_apart doc_id kwargs :
  index_name self = "movies" ∨ index_name self = "persons" ∨ index_name self = "genres" →
  index_name self +:+ doc_id ≠ _get_hash kwargs.
Proof. intros Hbound. by apply bound_key_not_a_number. Qed.

(** The outcome of [get_by_id] depends on the world through the value at
    its key alone. *)
Lemma get_by_id_outcome_local doc_id (w w' : World Body) :
  live w' (index_name self +:+ doc_id) = live w (index_name self +:+ doc_id) →
  (get_by_id doc_id w').1 = (get_by_id doc_id w).1.
Proof.
  intros Hsame.
  destruct (redis_fault (GET (index_name self +:+ doc_id))) as [e|] eqn:Hget.
  { by rewrite !(get_by_id_get_fault doc_id e). }
  assert (Hmiss : ∀ v v' : World Body,
    (live v (index_name self +:+ doc_id) = None
     ∨ ∃ exp, live v (index_name self +:+ doc_id) = Some (RStr "" exp)) →
    (live v' (index_name self +:+ doc_id) = None
     ∨ ∃ exp, live v' (index_name self +:+ doc_id) = Some (RStr "" exp)) →
    (get_by_id doc_id v').1 = (get_by_id doc_id v).1).
  { intros v v' Hv Hv'.
    rewrite (get_by_id_miss _ _ Hget Hv), (get_by_id_miss _ _ Hget Hv').
    rewrite !_get_item_from_elastic_run. cbn [fst snd].
    destruct (es_get elastic (index_name self) doc_id) as [d|e]; [|by destruct e].
    destruct (MODELS !! index_name self) as [cls|]; [|reflexivity].
    destruct (construct cls _) as [doc|]; [|reflexivity].
    by rewrite !_put_item_to_cache_run. }
  destruct (live w _) as [[raw exp|l]|] eqn:Hlive.
  - destruct (decide (raw = "")) as [->|Hraw].
    + apply Hmiss; right; by exists exp.
    + by rewrite (get_by_id_hit _ _ _ _ Hget Hlive Hraw),
                 (get_by_id_hit _ _ _ _ Hget Hsame Hraw).
  - by rewrite (get_by_id_wrong_type _ l w Hget Hlive),
               (get_by_id_wrong_type _ l w' Hget Hsame).
  - apply Hmiss; by left.
Qed.

(** The outcome of [_get_data] depends on the world through the value at
    its key alone. *)
Lemma _get_data_outcome_local body size idx (w w' : World Body) :
  let key := _get_hash (py_str body +:+ effective_index idx) in
  live w' key = live w key →
  (_get_data body size idx w').1 = (_get_data body size idx w).1.
Proof.
  intros key Hsame.
  destruct (redis_fault (LRANGE key 0 size)) as [e|] eqn:Hup.
  { by rewrite !(_get_data_lrange_fault body size idx e). }
  assert (Hunserved : ∀ v v' : World Body,
    live v' key = live v key →
    (live v key = None
     ∨ ∃ l, live v key = Some (RList l) ∧ lrange_slice l 0 size = []) →
    (_get_data body size idx v').1 = (_get_data body size idx v).1).
  { intros v v' Hvv Hv.
    assert (Hv' : live v' key = None
                  ∨ ∃ l, live v' key = Some (RList l) ∧ lrange_slice l 0 size = [])
      by by rewrite Hvv.
    rewrite (_get_data_unserved body size idx v Hup Hv),
            (_get_data_unserved body size idx v' Hup Hv'). cbv zeta.
    rewrite !_get_data_from_elastic_run. cbn [fst snd]. fold key.
    destruct (es_search elastic (effective_index idx) body) as [[|h hits]|e];
      [reflexivity| |by destruct e].
    destruct (MODELS !! index_name self) as [cls|]; [|reflexivity].
    destruct (mapM _ _) as [[|doc docs]|]; [reflexivity| |reflexivity].
    rewrite fmap_cons, !_put_full_data_to_cache_cases.
    change (live (asked _ (sent _ v')) key) with (live v' key).
    change (live (asked _ (sent _ v)) key) with (live v key).
    rewrite Hvv. destruct (redis_fault (RPUSH _ _)) as [e|]; [reflexivity|].
    by destruct (live v key) as [[? ?|?]|]. }
  destruct (live w key) as [[v exp|l]|] eqn:Hlive.
  - by rewrite (_get_data_wrong_type body size idx v exp w Hup Hlive),
               (_get_data_wrong_type body size idx v exp w' Hup Hsame).
  - destruct (lrange_slice l 0 size) as [|raw raws] eqn:Hslice.
    + apply Hunserved; [by rewrite Hlive|]. right. by exists l.
    + rewrite (_get_data_served body size idx l w Hup Hlive) by by rewrite Hslice.
      by rewrite (_get_data_served body size idx l w' Hup Hsame) by by rewrite Hslice.
  - apply Hunserved; [by rewrite Hlive|]. by left.
Qed.

Lemma get_by_id_live_frame doc_id k (w : World Body) :
  (∀ doc, k ≠ index_name self +:+ id_of doc) →
  live (get_by_id doc_id w).2 k = live w k.
Proof.
  intros Hk.
  destruct (get_by_id_cases doc_id w) as [[o H]|[o [H _]]]; by rewrite H.
Qed.

Lemma _get_data_live_frame body size idx k (w : World Body) :
  k ≠ _get_hash (py_str body +:+ effective_index idx) →
  live (_get_data body size idx w).2 k = live w k.
Proof.
  intros Hk.
  destruct (_get_data_cases body size idx w)
    as [[o H]|[[o [H _]]|[(items & e & H)|(items & old & _ & _ & H)]]];
    rewrite H; try reflexivity.
  unfold live. cbn. by rewrite lookup_insert_ne.
Qed.

(** X17. On a service bound to "movies", "persons" or "genres" the two
    fetches do not get in each other's way: a [_get_data] before it does not
    change what [get_by_id] answers, and a [get_by_id] before it does not
    change what [_get_data] answers. *)
Theorem fetches_do_not_interfere doc_id body size idx (w : World Body) :
  index_name self = "movies" ∨ index_name self = "persons" ∨ index_name self = "genres" →
  (get_by_id doc_id (_get_data body size idx w).2).1 = (get_by_id doc_id w).1
  ∧ (_get_data body size idx (get_by_id doc_id w).2).1 = (_get_data body size idx w).1.
Proof.
  intros Hbound. split.
  - apply get_by_id_outcome_local, _get_data_live_frame.
    by apply bound_key_not_a_number.
  - apply _get_data_outcome_local, get_by_id_live_frame.
    intros doc Heq. symmetry in Heq. revert Heq. by apply bound_key_not_a_number.
Qed.

(** ** Beyond the claims: the genre endpoints *)

(** What [genre_details] makes of the answer of [get_by_id]. *)
Lemma genre_details_run genre_id (w : World Body) :
  genre_details genre_id w =
    (match (get_by_id genre_id w).1 with
     | Returned None => HTTPException NOT_FOUND "genre not found"
     | Returned (Some genre) =>
       match GenreBase genre with
       | Some a => Responded a
       | None => Failed ValidationError
       end
     | Raised e => Failed e
     end, (get_by_id genre_id w).2).
Proof.
  unfold genre_details, mbind, Endpoint_bind, serve.
  destruct (get_by_id genre_id w) as [[[genre|]|e] w']; cbn; [|reflexivity..].
  by destruct (GenreBase genre).
Qed.

Lemma comprehension_validated {A B} (f : A → option B) (items : list A) (w : World Body) :
  comprehension (λ item, validated (f item)) items w =
    (match mapM f items with
     | Some l => Returned l
     | None => Raised ValidationError
     end, w).
Proof.
  induction items as [|x xs IH]; [reflexivity|].
  change (comprehension (λ item, validated (f item)) (x :: xs))
    with (y ← validated (f x);
          k ← comprehension (λ item, validated (f item)) xs; mret (y :: k)).
  change (mapM f (x :: xs)) with (y ← f x; k ← mapM f xs; mret (y :: k)).
  destruct (f x) as [y|]; [|reflexivity].
  erewrite bind_returned by reflexivity.
  destruct (mapM f xs) as [k|].
  - by erewrite bind_returned by exact IH.
  - by erewrite bind_raised by exact IH.
Qed.

(** X18. For an id that is not in the cache, [genre_details] answers 404
    "genre not found" when the backend reports not-found, and only then: an
    exception of the backend and a failure of the cache come out as they
    are, not as a 404. *)
Theorem genre_details_not_found genre_id (w : World Body) :
  let key := index_name self +:+ genre_id in
  live w key = None →
  (redis_fault (GET key) = None →
   es_get elastic (index_name self) genre_id = Raised NotFoundError →
   genre_details genre_id w =
     (HTTPException 404 "genre not found",
      asked (EsGet (index_name self) genre_id) (sent (GET key) w)))
  ∧ (∀ e, redis_fault (GET key) = None →
       es_get elastic (index_name self) genre_id = Raised e →
       e ≠ NotFoundError →
       (genre_details genre_id w).1 = Failed e)
  ∧ (∀ e, redis_fault (GET key) = Some e → (genre_details genre_id w).1 = Failed e).
Proof.
  intros key Hmiss. split_and!.
  - intros Hget Hes. rewrite genre_details_run.
    by rewrite (get_by_id_miss _ _ Hget (or_introl Hmiss)), _get_item_from_elastic_run, Hes.
  - intros e Hget Hes Hne. rewrite genre_details_run.
    rewrite (get_by_id_miss _ _ Hget (or_introl Hmiss)), _get_item_from_elastic_run, Hes.
    by destruct e.
  - intros e Hget. rewrite genre_details_run.
    by rewrite (get_by_id_get_fault genre_id e w Hget).
Qed.

(** X19. For an id whose record is in the cache, [genre_details] answers
    with the response model of the cached record and the backend is not
    asked. *)
Theorem genre_details_cached genre_id raw exp cls genre a (w : World Body) :
  let key := index_name self +:+ genre_id in
  redis_fault (GET key) = None →
  live w key = Some (RStr raw exp) →
  raw ≠ "" →
  MODELS !! index_name self = Some cls →
  parse_raw cls raw = Some genre →
  GenreBase genre = Some a →
  genre_details genre_id w = (Responded a, sent (GET key) w).
Proof.
  intros key Hget Hlive Hraw Hcls Hgenre Ha. rewrite genre_details_run.
  rewrite (get_by_id_hit _ _ _ _ Hget Hlive Hraw), Hcls, Hgenre. cbn [fst snd].
  by rewrite Ha.
Qed.

(** What [film_list] makes of the listing of the service. *)
Lemma film_list_run page size (w : World Body) :
  film_list page size w =
    (match (get_list_genres page size w).1 with
     | Returned None | Returned (Some []) => HTTPException NOT_FOUND "genres not found"
     | Returned (Some genres) =>
       match mapM GenreBase genres with
       | Some answers => Responded answers
       | None => Failed ValidationError
       end
     | Raised e => Failed e
     end, (get_list_genres page size w).2).
Proof.
  unfold film_list, mbind, Endpoint_bind, serve.
  destruct (get_list_genres page size w) as [[[[|genre genres]|]|e] w'];
    cbn [fst snd truthy truthy_option truthy_list negb]; try reflexivity.
  cbv beta iota delta [the mret M_ret].
  rewrite comprehension_validated. by destruct (mapM _ _).
Qed.

(** X20. [film_list] answers 404 "genres not found" when the listing of the
    service is None or empty; an exception of the service comes out as it is;
    otherwise the answer has one response model for each genre listed, in the
    order listed.  The endpoint does no I/O of its own. *)
Theorem film_list_replies page size (w : World Body) :
  let listed := get_list_genres page size w in
  let r := film_list page size w in
  r.2 = listed.2
  ∧ (listed.1 = Returned None ∨ listed.1 = Returned (Some []) →
       r.1 = HTTPException 404 "genres not found")
  ∧ (∀ e, listed.1 = Raised e → r.1 = Failed e)
  ∧ (∀ genres answers,
       listed.1 = Returned (Some genres) →
       genres ≠ [] →
       Forall2 (λ genre a, GenreBase genre = Some a) genres answers →
       r.1 = Responded answers).
Proof.
  intros listed r. unfold r, listed. rewrite film_list_run. cbn [fst snd].
  split_and!.
  - done.
  - by intros [-> | ->].
  - by intros e ->.
  - intros genres answers -> Hne Hall. apply mapM_Some in Hall.
    rewrite Hall. by destruct genres.
Qed.

End Service.

(** ** The properties on the catalogue *)

Import Scenario.

Local Abbreviation get_genre :=
  (get_by_id string GenreDoc GenreDoc NoModel NoModel GenreModel genre_json gid).
Local Abbreviation get_genres :=
  (_get_data string GenreDoc GenreDoc render code_sum NoModel NoModel GenreModel genre_json).

(** The cache says Tragedy where the backend says Drama: Tragedy it is, and
    the backend is not asked. *)
Lemma get_by_id_cache_takes_precedence_witness :
  let w := holding "genresg1" (RStr "g1:Tragedy" None) in
  get_genre no_fault backend genre_service "g1" w
    = (Returned (Some tragedy), sent (GET "genresg1") w)
  ∧ es_log (get_genre no_fault backend genre_service "g1" w).2 = [].
Proof.
  apply (get_by_id_cache_takes_precedence string GenreDoc GenreDoc NoModel NoModel
           GenreModel genre_json gid no_fault backend genre_service
           "g1" "g1:Tragedy" None GenreModel tragedy);
    [reflexivity|reflexivity|discriminate|reflexivity|reflexivity].
Defined.

(** C2. g1 is in the backend and not in the cache.  The write of
    [get_by_id] is [set] with the keyword [expire], which the client does not
    take: the fetch raises TypeError, the record is not returned, no SET is
    sent and nothing is cached, so the next fetch asks the backend again and
    raises again. *)
Theorem get_by_id_write_raises_type_error :
  let r := get_genre no_fault backend genre_service "g1" start in
  let again := get_genre no_fault backend genre_service "g1" r.2 in
  es_get backend "genres" "g1" = Returned {| _source := drama |}
  ∧ r.1 = Raised TypeError
  ∧ store r.2 = ∅
  ∧ redis_log r.2 = [GET "genresg1"]
  ∧ es_log r.2 = [EsGet "genres" "g1"]
  ∧ again.1 = Raised TypeError
  ∧ es_log again.2 = [EsGet "genres" "g1"; EsGet "genres" "g1"].
Proof. vm_compute. by repeat split. Qed.

(** Two searches that match nothing, from an empty cache: the backend is
    searched twice. *)
Lemma _get_data_twice_counterexample :
  let first := get_genres no_fault backend genre_service "{match_none}" 2 None start in
  let second := get_genres no_fault backend genre_service "{match_none}" 2 None first.2 in
  store start = ∅
  ∧ first.1 = Returned None
  ∧ second.1 = Returned None
  ∧ es_log second.2
      = [EsSearch "genres" "{match_none}"; EsSearch "genres" "{match_none}"]
  ∧ length (es_log second.2) ≠ 1%nat.
Proof. vm_compute. repeat split; discriminate. Qed.

(** Three genres, a page of three: the second search is read from the list
    at "1825". *)
Lemma _get_data_twice_one_search_witness :
  let first := get_genres no_fault backend genre_service "{match_all}" 3 None start in
  let second := get_genres no_fault backend genre_service "{match_all}" 3 None first.2 in
  first.1 = Returned (Some [drama; comedy; horror])
  ∧ second.1 = Returned (Some [drama; comedy; horror])
  ∧ es_log second.2 = [EsSearch "genres" "{match_all}"]
  ∧ redis_log second.2 = (redis_log first.2 ++ [LRANGE "1825" 0 3])%list
  ∧ "1825" = py_str_int (code_sum "{match_all}genres").
Proof.
  apply (_get_data_twice_one_search string GenreDoc GenreDoc render code_sum NoModel
           NoModel GenreModel genre_json no_fault backend genre_service
           "{match_all}" 3 None
           [{| _source := drama |}; {| _source := comedy |}; {| _source := horror |}]
           GenreModel [drama; comedy; horror] start);
    [intros c; reflexivity|reflexivity|reflexivity|reflexivity|reflexivity
    |repeat constructor|discriminate|discriminate].
Defined.

(** Three genres are cached by a search of size three; the replay of size
    one is served from the cache and leaves the last one out. *)
Lemma _get_data_preserves_order_counterexample :
  let first := get_genres no_fault backend genre_service "{match_all}" 3 None start in
  let later := get_genres no_fault backend genre_service "{match_all}" 1 None first.2 in
  es_search backend "genres" "{match_all}"
    = Returned [{| _source := drama |}; {| _source := comedy |}; {| _source := horror |}]
  ∧ first.1 = Returned (Some [drama; comedy; horror])
  ∧ es_log later.2 = es_log first.2
  ∧ later.1 ≠ Returned (Some [drama; comedy; horror]).
Proof. vm_compute. repeat split; discriminate. Qed.

(** Three genres in the order of the backend, then a replay with a range of
    two positions. *)
Lemma _get_data_preserves_order_witness :
  let first := get_genres no_fault backend genre_service "{match_all}" 3 None start in
  let later := get_genres no_fault backend genre_service "{match_all}" 1 None first.2 in
  first.1 = Returned (Some [drama; comedy; horror])
  ∧ later.1 = Returned (Some [drama; comedy])
  ∧ es_log later.2 = es_log first.2.
Proof.
  destruct (_get_data_preserves_order string GenreDoc GenreDoc render code_sum NoModel
              NoModel GenreModel genre_json no_fault backend genre_service
              "{match_all}" 3 1 None
              [{| _source := drama |}; {| _source := comedy |}; {| _source := horror |}]
              GenreModel [drama; comedy; horror] start)
    as (Hfirst & _ & _ & Hlater & _);
    [intros c; reflexivity|reflexivity|reflexivity|reflexivity|reflexivity
    |repeat constructor|discriminate|].
  split; [exact Hfirst|]. apply Hlater. discriminate.
Defined.

(** g9 is nowhere: None, and nothing is written. *)
Lemma get_by_id_absent_or_failure_witness :
  get_genre no_fault backend genre_service "g9" start
    = (Returned None, asked (EsGet "genres" "g9") (sent (GET "genresg9") start))
  ∧ (get_genre no_fault backend_down genre_service "g9" start).1 = Raised ConnectionError
  ∧ (get_genre get_fault backend genre_service "g9" start).1 = Raised TimeoutError.
Proof.
  destruct (get_by_id_absent_or_failure string GenreDoc GenreDoc NoModel NoModel
              GenreModel genre_json gid no_fault backend genre_service "g9" start)
    as (Habsent & _); [reflexivity|].
  destruct (get_by_id_absent_or_failure string GenreDoc GenreDoc NoModel NoModel
              GenreModel genre_json gid no_fault backend_down genre_service "g9" start)
    as (_ & Hbackend & _); [reflexivity|].
  destruct (get_by_id_absent_or_failure string GenreDoc GenreDoc NoModel NoModel
              GenreModel genre_json gid get_fault backend genre_service "g9" start)
    as (_ & _ & Hget); [reflexivity|].
  split_and!.
  - apply Habsent; reflexivity.
  - apply Hbackend; [reflexivity|reflexivity|discriminate].
  - apply Hget; reflexivity.
Defined.

(** A search that matches nothing, and a search the backend does not know. *)
Lemma _get_data_absent_witness :
  (get_genres no_fault backend genre_service "{match_none}" 2 None start).1 = Returned None
  ∧ store (get_genres no_fault backend genre_service "{match_none}" 2 None start).2 = ∅
  ∧ (get_genres no_fault backend genre_service "{unknown}" 2 None start).1 = Returned None.
Proof.
  destruct (_get_data_absent string GenreDoc GenreDoc render code_sum NoModel NoModel
              GenreModel genre_json no_fault backend genre_service
              "{match_none}" 2 None start) as (Hrun & Hstore & _);
    [reflexivity|by left|by left|].
  destruct (_get_data_absent string GenreDoc GenreDoc render code_sum NoModel NoModel
              GenreModel genre_json no_fault backend genre_service
              "{unknown}" 2 None start) as (Hrun' & _ & _);
    [reflexivity|by left|by right|].
  split_and!; [by rewrite Hrun|exact Hstore|by rewrite Hrun'].
Defined.

(** C7. With [size] = 1 the replay of a search that brought three genres
    reads positions 0 and 1 of the list and returns two records. *)
Theorem _get_data_reads_size_plus_one :
  let first := get_genres no_fault backend genre_service "{match_all}" 1 None start in
  let later := get_genres no_fault backend genre_service "{match_all}" 1 None first.2 in
  live first.2 "1825" = Some (RList ["g1:Drama"; "g2:Comedy"; "g3:Horror"])
  ∧ later.1 = Returned (Some [drama; comedy])
  ∧ es_log later.2 = es_log first.2
  ∧ redis_log later.2 = (redis_log first.2 ++ [LRANGE "1825" 0 1])%list.
Proof. vm_compute. by repeat split. Qed.

(** An empty value at the key of g9, which the backend does not have: the
    codec rejects the value, and the caller gets None. *)
Lemma deserialization_failure_counterexample :
  let w := holding "genresg9" (RStr "" None) in
  parse_raw GenreModel "" = None
  ∧ live w "genresg9" = Some (RStr "" None)
  ∧ (get_genre no_fault backend genre_service "g9" w).1 = Returned None.
Proof. vm_compute. by repeat split. Qed.

(** A cached payload without the separator, and a backend document without
    an id. *)
Lemma deserialization_failure_propagates_witness :
  (get_genre no_fault backend genre_service "g1"
     (holding "genresg1" (RStr "Drama" None))).1 = Raised ValidationError
  ∧ (get_genre no_fault backend_unnamed genre_service "g4" start).1
      = Raised ValidationError
  ∧ (get_genres no_fault backend genre_service "{match_all}" 1 None
       (holding "1825" (RList ["g1:Drama"; "Comedy"]))).1 = Raised ValidationError
  ∧ (get_genres no_fault backend_unnamed genre_service "{match_all}" 1 None start).1
      = Raised ValidationError.
Proof.
  split_and!.
  - apply (proj1 (deserialization_failure_propagates string GenreDoc GenreDoc render
             code_sum NoModel NoModel GenreModel genre_json gid no_fault backend
             genre_service GenreModel (holding "genresg1" (RStr "Drama" None)) eq_refl)
             "g1" "Drama" None);
      [reflexivity|reflexivity|discriminate|reflexivity].
  - apply (proj1 (proj2 (deserialization_failure_propagates string GenreDoc GenreDoc
             render code_sum NoModel NoModel GenreModel genre_json gid no_fault
             backend_unnamed genre_service GenreModel start eq_refl))
             "g4" {| _source := {| gid := ""; gname := "Unnamed" |} |});
      reflexivity.
  - apply (proj1 (proj2 (proj2 (deserialization_failure_propagates string GenreDoc
             GenreDoc render code_sum NoModel NoModel GenreModel genre_json gid no_fault
             backend genre_service GenreModel
             (holding "1825" (RList ["g1:Drama"; "Comedy"])) eq_refl)))
             "{match_all}" 1 None ["g1:Drama"; "Comedy"] "Comedy");
      [reflexivity|reflexivity|apply list_elem_of_further, list_elem_of_here|reflexivity].
  - apply (proj2 (proj2 (proj2 (deserialization_failure_propagates string GenreDoc
             GenreDoc render code_sum NoModel NoModel GenreModel genre_json gid no_fault
             backend_unnamed genre_service GenreModel start eq_refl)))
             "{match_all}" 1 None
             [{| _source := drama |}; {| _source := {| gid := ""; gname := "Unnamed" |} |}]
             {| _source := {| gid := ""; gname := "Unnamed" |} |});
      [reflexivity|reflexivity|reflexivity
      |apply list_elem_of_further, list_elem_of_here|reflexivity].
Defined.

(** The bare g1 is not a key of the cache; the lookup is the GET of genresg1
    all the same, and it hits. *)
Lemma cache_hit_decided_by_get_witness :
  let w := holding "genresg1" (RStr "g1:Drama" None) in
  live w "g1" = None
  ∧ _get_item_from_cache string no_fault genre_service "g1" w
      = (Returned (Some "g1:Drama"), sent (GET "genresg1") w)
  ∧ es_log (get_genre no_fault backend genre_service "g1" w).2 = [].
Proof.
  destruct (cache_hit_decided_by_get string GenreDoc GenreDoc NoModel NoModel
              GenreModel genre_json gid no_fault backend genre_service "g1"
              (holding "genresg1" (RStr "g1:Drama" None)))
    as (_ & Hget & _ & Hhit & _); [reflexivity|].
  split_and!; [reflexivity|by rewrite Hget|].
  apply (Hhit "g1:Drama" None); [reflexivity|discriminate].
Defined.

(** The service as constructed by default, index_name being the empty
    string. *)
Lemma unbound_index_name_fails_witness :
  (get_genre no_fault backend base_service "g1"
     (holding "g1" (RStr "g1:Drama" None))).1 = Raised (KeyError "")
  ∧ (get_genres no_fault backend base_service "{match_all}" 2 (Some "genres") start).1
      = Raised (KeyError "").
Proof.
  destruct (unbound_index_name_fails string GenreDoc GenreDoc render code_sum NoModel
              NoModel GenreModel genre_json gid no_fault backend base_service
              (holding "g1" (RStr "g1:Drama" None)))
    as (Hhit & _); [discriminate..|].
  destruct (unbound_index_name_fails string GenreDoc GenreDoc render code_sum NoModel
              NoModel GenreModel genre_json gid no_fault backend base_service start)
    as (_ & _ & _ & Hsearch & _); [discriminate..|].
  split.
  - apply (Hhit "g1" "g1:Drama" None); [reflexivity|reflexivity|discriminate].
  - apply (Hsearch "{match_all}" 2 (Some "genres") {| _source := drama |}
             [{| _source := comedy |}; {| _source := horror |}]); reflexivity.
Defined.

(** ** Beyond the claims, on the catalogue *)

Local Abbreviation genre_endpoint :=
  (genre_details string GenreDoc GenreDoc NoModel NoModel GenreModel genre_json gid).
Local Abbreviation genres_endpoint := (film_list string GenreDoc GenreDoc genre_base).

(** g1 is in the backend: fetched now and again an hour later, it raises
    both times and is never cached. *)
Lemma get_by_id_miss_write_raises_witness :
  let r := get_genre no_fault backend genre_service "g1" start in
  let again := get_genre no_fault backend genre_service "g1" (tick 3600 r.2) in
  r = (Raised TypeError, asked (EsGet "genres" "g1") (sent (GET "genresg1") start))
  ∧ store r.2 = ∅
  ∧ again.1 = Raised TypeError
  ∧ es_log again.2 = [EsGet "genres" "g1"; EsGet "genres" "g1"].
Proof.
  destruct (get_by_id_miss_write_raises string GenreDoc GenreDoc NoModel NoModel
              GenreModel genre_json gid no_fault backend genre_service
              "g1" {| _source := drama |} GenreModel drama 3600 start)
    as (Hrun & Hstore & _ & Hagain);
    [reflexivity|reflexivity|reflexivity|reflexivity|reflexivity|].
  split_and!; [exact Hrun|exact Hstore|apply Hagain; reflexivity..].
Defined.

(** The four ways a search fails. *)
Lemma _get_data_failure_propagates_witness :
  (get_genres lrange_fault backend genre_service "{match_all}" 2 None start).1
    = Raised ConnectionError
  ∧ (get_genres no_fault backend genre_service "{match_all}" 2 None
       (holding "1825" (RStr "g1:Drama" None))).1 = Raised ResponseError
  ∧ (get_genres no_fault backend_down genre_service "{match_all}" 2 None start).1
      = Raised ConnectionError
  ∧ (get_genres rpush_fault backend genre_service "{match_all}" 2 None start).1
      = Raised ConnectionError.
Proof.
  destruct (_get_data_failure_propagates string GenreDoc GenreDoc render code_sum NoModel
              NoModel GenreModel genre_json lrange_fault backend genre_service
              "{match_all}" 2 None start) as (Hread & _).
  destruct (_get_data_failure_propagates string GenreDoc GenreDoc render code_sum NoModel
              NoModel GenreModel genre_json no_fault backend genre_service
              "{match_all}" 2 None (holding "1825" (RStr "g1:Drama" None)))
    as (_ & Htype & _).
  destruct (_get_data_failure_propagates string GenreDoc GenreDoc render code_sum NoModel
              NoModel GenreModel genre_json no_fault backend_down genre_service
              "{match_all}" 2 None start) as (_ & _ & Hdown & _).
  destruct (_get_data_failure_propagates string GenreDoc GenreDoc render code_sum NoModel
              NoModel GenreModel genre_json rpush_fault backend genre_service
              "{match_all}" 2 None start) as (_ & _ & _ & Hpush).
  split_and!.
  - apply (Hread ConnectionError). reflexivity.
  - apply (Htype "g1:Drama" None); reflexivity.
  - apply Hdown; [reflexivity|reflexivity|reflexivity|discriminate].
  - apply (Hpush ConnectionError
             [{| _source := drama |}; {| _source := comedy |}; {| _source := horror |}]
             GenreModel [drama; comedy; horror]);
      [reflexivity|reflexivity|reflexivity|reflexivity|reflexivity|discriminate
      |reflexivity].
Defined.

(** One entry at the key and a size of 0. *)
Lemma _get_data_cached_list_is_final_witness :
  let w := holding "1825" (RList ["g1:Drama"]) in
  let r := get_genres no_fault backend genre_service "{match_all}" 0 None w in
  es_log r.2 = []
  ∧ store r.2 = store w
  ∧ redis_log r.2 = [LRANGE "1825" 0 0].
Proof.
  apply (_get_data_cached_list_is_final string GenreDoc GenreDoc render code_sum NoModel
           NoModel GenreModel genre_json no_fault backend genre_service
           "{match_all}" 0 None "g1:Drama" [] (holding "1825" (RList ["g1:Drama"])));
    [reflexivity|reflexivity|discriminate].
Defined.

(** The three genres are replayed a million seconds after they were cached. *)
Lemma _get_data_list_never_expires_witness :
  let first := get_genres no_fault backend genre_service "{match_all}" 3 None start in
  let later :=
    get_genres no_fault backend genre_service "{match_all}" 3 None (tick 1000000 first.2) in
  later.1 = Returned (Some [drama; comedy; horror])
  ∧ es_log later.2 = es_log first.2
  ∧ store later.2 = store first.2.
Proof.
  apply (_get_data_list_never_expires string GenreDoc GenreDoc render code_sum NoModel
           NoModel GenreModel genre_json no_fault backend genre_service
           "{match_all}" 3 None
           [{| _source := drama |}; {| _source := comedy |}; {| _source := horror |}]
           GenreModel [drama; comedy; horror] 1000000 start);
    [intros c; reflexivity|reflexivity|reflexivity|reflexivity|reflexivity
    |repeat constructor|discriminate|discriminate].
Defined.

(** One entry at the key and a size of -2: the three genres of the backend
    come after it. *)
Lemma _get_data_negative_size_appends_witness :
  let w := holding "1825" (RList ["g1:Drama"]) in
  let r := get_genres no_fault backend genre_service "{match_all}" (-2) None w in
  r.1 = Returned (Some [drama; comedy; horror])
  ∧ es_log r.2 = [EsSearch "genres" "{match_all}"]
  ∧ store r.2 !! "1825"
      = Some (RList ["g1:Drama"; "g1:Drama"; "g2:Comedy"; "g3:Horror"]).
Proof.
  apply (_get_data_negative_size_appends string GenreDoc GenreDoc render code_sum NoModel
           NoModel GenreModel genre_json no_fault backend genre_service
           "{match_all}" (-2) None ["g1:Drama"]
           [{| _source := drama |}; {| _source := comedy |}; {| _source := horror |}]
           GenreModel [drama; comedy; horror] (holding "1825" (RList ["g1:Drama"])));
    [intros c; reflexivity|reflexivity|reflexivity|reflexivity|reflexivity
    |reflexivity|discriminate].
Defined.

(** Cached by a search of size 1, replayed with size -1. *)
Lemma _get_data_minus_one_reads_all_witness :
  let first := get_genres no_fault backend genre_service "{match_all}" 1 None start in
  let later := get_genres no_fault backend genre_service "{match_all}" (-1) None first.2 in
  later.1 = Returned (Some [drama; comedy; horror])
  ∧ es_log later.2 = es_log first.2.
Proof.
  apply (_get_data_minus_one_reads_all string GenreDoc GenreDoc render code_sum NoModel
           NoModel GenreModel genre_json no_fault backend genre_service
           "{match_all}" 1 None
           [{| _source := drama |}; {| _source := comedy |}; {| _source := horror |}]
           GenreModel [drama; comedy; horror] start);
    [intros c; reflexivity|reflexivity|reflexivity|reflexivity|reflexivity
    |repeat constructor|discriminate].
Defined.

(** Three entries at the key and a size of 1: two records. *)
Lemma _get_data_served_length_witness :
  Z.of_nat (length [drama; comedy]) ≤ 1 + 1
  ∧ (1 < Z.of_nat (length ["g1:Drama"; "g2:Comedy"; "g3:Horror"]) →
     Z.of_nat (length [drama; comedy]) = 1 + 1).
Proof.
  apply (_get_data_served_length string GenreDoc GenreDoc render code_sum NoModel
           NoModel GenreModel genre_json no_fault backend genre_service
           "{match_all}" 1 None "g1:Drama" ["g2:Comedy"; "g3:Horror"] [drama; comedy]
           (holding "1825" (RList ["g1:Drama"; "g2:Comedy"; "g3:Horror"])));
    [reflexivity|reflexivity|discriminate|reflexivity].
Defined.

(** "{all_match}" is unknown to the backend and has the character sum of
    "{match_all}": it is served the three genres. *)
Lemma _get_data_collision_shares_entry_witness :
  let first := get_genres no_fault backend genre_service "{match_all}" 3 None start in
  let other := get_genres no_fault backend genre_service "{all_match}" 3 None first.2 in
  first.1 = Returned (Some [drama; comedy; horror])
  ∧ other.1 = Returned (Some [drama; comedy; horror])
  ∧ es_log other.2 = es_log first.2.
Proof.
  apply (_get_data_collision_shares_entry string GenreDoc GenreDoc render code_sum NoModel
           NoModel GenreModel genre_json no_fault backend genre_service
           "{match_all}" "{all_match}" 3 None None
           [{| _source := drama |}; {| _source := comedy |}; {| _source := horror |}]
           GenreModel [drama; comedy; horror] start);
    [intros c; reflexivity|reflexivity|reflexivity|reflexivity|reflexivity|reflexivity
    |repeat constructor|discriminate|discriminate].
Defined.

(** The genre 1825 is not the list of the search whose key is 1825. *)
Lemma single_and_list_keys_apart_witness :
  _get_hash code_sum "{match_all}genres" = "1825"
  ∧ index_name genre_service +:+ "1825" ≠ _get_hash code_sum "{match_all}genres".
Proof.
  split; [reflexivity|].
  apply (single_and_list_keys_apart code_sum genre_service "1825" "{match_all}genres").
  right; right; reflexivity.
Defined.

(** A search before the get, and a get before the search. *)
Lemma fetches_do_not_interfere_witness :
  (get_genre no_fault backend genre_service "g1"
     (get_genres no_fault backend genre_service "{match_all}" 3 None start).2).1
    = (get_genre no_fault backend genre_service "g1" start).1
  ∧ (get_genres no_fault backend genre_service "{match_all}" 3 None
       (get_genre no_fault backend genre_service "g1" start).2).1
      = (get_genres no_fault backend genre_service "{match_all}" 3 None start).1.
Proof.
  apply (fetches_do_not_interfere string GenreDoc GenreDoc render code_sum NoModel
           NoModel GenreModel genre_json gid no_fault backend genre_service
           "g1" "{match_all}" 3 None start).
  right; right; reflexivity.
Defined.

(** g9 is nowhere: 404.  The backend is down: no 404. *)
Lemma genre_details_not_found_witness :
  genre_endpoint no_fault backend genre_service GenreDoc genre_base "g9" start
    = (HTTPException 404 "genre not found",
       asked (EsGet "genres" "g9") (sent (GET "genresg9") start))
  ∧ (genre_endpoint no_fault backend_down genre_service GenreDoc genre_base "g9" start).1
      = Failed ConnectionError.
Proof.
  destruct (genre_details_not_found string GenreDoc GenreDoc NoModel NoModel GenreModel
              genre_json gid no_fault backend genre_service GenreDoc genre_base "g9" start)
    as (Habsent & _); [reflexivity|].
  destruct (genre_details_not_found string GenreDoc GenreDoc NoModel NoModel GenreModel
              genre_json gid no_fault backend_down genre_service GenreDoc genre_base
              "g9" start)
    as (_ & Hdown & _); [reflexivity|].
  split.
  - apply Habsent; reflexivity.
  - apply Hdown; [reflexivity|reflexivity|discriminate].
Defined.

(** The cache says Tragedy. *)
Lemma genre_details_cached_witness :
  let w := holding "genresg1" (RStr "g1:Tragedy" None) in
  genre_endpoint no_fault backend genre_service GenreDoc genre_base "g1" w
    = (Responded tragedy, sent (GET "genresg1") w).
Proof.
  apply (genre_details_cached string GenreDoc GenreDoc NoModel NoModel GenreModel
           genre_json gid no_fault backend genre_service GenreDoc genre_base
           "g1" "g1:Tragedy" None GenreModel tragedy tragedy);
    [reflexivity|reflexivity|discriminate|reflexivity|reflexivity|reflexivity].
Defined.

(** A page of two genres, and an empty page. *)
Lemma film_list_replies_witness :
  (genres_endpoint list_two 1 25 start).1 = Responded [drama; comedy]
  ∧ (genres_endpoint list_none 1 25 start).1 = HTTPException 404 "genres not found".
Proof.
  destruct (film_list_replies string GenreDoc GenreDoc genre_base list_two 1 25 start)
    as (_ & _ & _ & Hpage).
  destruct (film_list_replies string GenreDoc GenreDoc genre_base list_none 1 25 start)
    as (_ & Hempty & _).
  split.
  - apply (Hpage [drama; comedy] [drama; comedy]);
      [reflexivity|discriminate|repeat constructor].
  - apply Hempty. right. reflexivity.
Defined.
